(** * Period-over-period session insights: a shallow embedding

    Embedding of [ee/api/chalicelib/core/sessions_insights.py].

    Python values are modelled by an inductive universe [Py.value]: None,
    integers, floats, strings, datetimes and lists of strings, which is what
    the rows of the four requests hold.  A raised exception is the [Raise]
    branch of [Py.result].

    Modelling choices:
    - Python floats are exact rationals; rounding, NaN and infinities are
      outside the model.
    - A [datetime] is its number of seconds since the epoch; arithmetic on
      datetimes (which would need [timedelta]) is outside the model, no
      column the module adds or subtracts holds one.
    - [np.array] over the row lists is the two-dimensional object array of
      the numpy releases the module was written for; releases from 1.24 on
      refuse rows that hold a list cell.
    - The ClickHouse client is outside the module: it is a function from
      requests to rows or an exception, and every computation leaves the list
      of the requests it sent. *)

From Stdlib Require Import List String Ascii ZArith QArith Bool Lia.
From Stdlib Require Import Sorting.Sorted Sorting.Permutation.
From Stdlib Require Import DecimalString.
Import ListNotations.

Set Implicit Arguments.

(** ** Python values, exceptions and the builtins the module uses *)
Module Py.

Inductive exn : Type :=
| IndexError
| ValueError
| TypeError
| ZeroDivisionError
| AssertionError
| UnboundLocalError
| DataSourceError (msg : string).

Inductive result (A : Type) : Type :=
| Ok (a : A)
| Raise (e : exn).
Arguments Ok {A} a.
Arguments Raise {A} e.

Definition bind {A B : Type} (c : result A) (k : A -> result B) : result B :=
  match c with
  | Ok a => k a
  | Raise e => Raise e
  end.

Inductive value : Type :=
| VNone
| VInt (z : Z)
| VFloat (q : Q)
| VStr (s : string)
| VTime (t : Z)
| VList (l : list string).

(** A row as the client hands it over: a [dict] in insertion order. *)
Definition row : Type := list (string * value).

Definition keys (r : row) : list string := map fst r.
Definition values (r : row) : list value := map snd r.

Fixpoint list_eqb {A : Type} (eqb : A -> A -> bool) (l m : list A) : bool :=
  match l, m with
  | [], [] => true
  | x :: l', y :: m' => eqb x y && list_eqb eqb l' m'
  | _, _ => false
  end.

(** [a == b] *)
Definition py_eq (a b : value) : bool :=
  match a, b with
  | VNone, VNone => true
  | VInt x, VInt y => Z.eqb x y
  | VInt x, VFloat q => Qeq_bool (inject_Z x) q
  | VFloat q, VInt x => Qeq_bool q (inject_Z x)
  | VFloat p, VFloat q => Qeq_bool p q
  | VStr s, VStr t => String.eqb s t
  | VTime s, VTime t => Z.eqb s t
  | VList l, VList m => list_eqb String.eqb l m
  | _, _ => false
  end.

(** [x in l] for a list [l] *)
Definition py_in (x : value) (l : list value) : bool :=
  existsb (fun y => py_eq y x) l.

(** [x in l] for a list of strings [l] and a string [x] *)
Definition str_in (x : string) (l : list string) : bool :=
  existsb (fun y => String.eqb y x) l.

(** [l[i]] for [0 <= i] *)
Definition getitem {A : Type} (l : list A) (i : nat) : result A :=
  match nth_error l i with
  | Some a => Ok a
  | None => Raise IndexError
  end.

(** [l.index(x)] *)
Fixpoint index (l : list string) (x : string) : result nat :=
  match l with
  | [] => Raise ValueError
  | y :: l' =>
      if String.eqb y x then Ok O
      else bind (index l' x) (fun i => Ok (S i))
  end.

(** [a + b] *)
Definition py_add (a b : value) : result value :=
  match a, b with
  | VInt x, VInt y => Ok (VInt (x + y))
  | VInt x, VFloat q => Ok (VFloat (inject_Z x + q))
  | VFloat q, VInt x => Ok (VFloat (q + inject_Z x))
  | VFloat p, VFloat q => Ok (VFloat (p + q))
  | VStr s, VStr t => Ok (VStr (s ++ t))
  | VList l, VList m => Ok (VList (l ++ m))
  | _, _ => Raise TypeError
  end.

(** [a - b] *)
Definition py_sub (a b : value) : result value :=
  match a, b with
  | VInt x, VInt y => Ok (VInt (x - y))
  | VInt x, VFloat q => Ok (VFloat (inject_Z x - q))
  | VFloat q, VInt x => Ok (VFloat (q - inject_Z x))
  | VFloat p, VFloat q => Ok (VFloat (p - q))
  | _, _ => Raise TypeError
  end.

Definition as_number (a : value) : option Q :=
  match a with
  | VInt x => Some (inject_Z x)
  | VFloat q => Some q
  | _ => None
  end.

(** [a / b] (true division) *)
Definition py_truediv (a b : value) : result value :=
  match as_number a, as_number b with
  | Some x, Some y =>
      if Qeq_bool y 0 then Raise ZeroDivisionError else Ok (VFloat (x / y))
  | _, _ => Raise TypeError
  end.

Fixpoint list_ltb (l m : list string) : bool :=
  match l, m with
  | [], [] => false
  | [], _ :: _ => true
  | _ :: _, [] => false
  | x :: l', y :: m' =>
      if String.ltb x y then true
      else if String.eqb x y then list_ltb l' m' else false
  end.

Definition Qlt_bool (x y : Q) : bool := negb (Qle_bool y x).

(** [a < b] *)
Definition py_lt (a b : value) : result bool :=
  match a, b with
  | VInt x, VInt y => Ok (Z.ltb x y)
  | VInt x, VFloat q => Ok (Qlt_bool (inject_Z x) q)
  | VFloat q, VInt x => Ok (Qlt_bool q (inject_Z x))
  | VFloat p, VFloat q => Ok (Qlt_bool p q)
  | VStr s, VStr t => Ok (String.ltb s t)
  | VTime s, VTime t => Ok (Z.ltb s t)
  | VList l, VList m => Ok (list_ltb l m)
  | _, _ => Raise TypeError
  end.

(** [str(n)] for an integer [n], as an f-string interpolates it *)
Definition str_of_int (n : Z) : string :=
  NilZero.string_of_int (Z.to_int n).

(** The dictionaries of the module are filled one key at a time and read
    back in insertion order: [d[k] = v]. *)
Fixpoint dict_set (d : list (value * value)) (k v : value)
  : list (value * value) :=
  match d with
  | [] => [(k, v)]
  | (k', v') :: d' =>
      if py_eq k' k then (k', v) :: d' else (k', v') :: dict_set d' k v
  end.

(** *** [sorted(l, key=..., reverse=...)]

    A stable sort; with [reverse=True] the list is reversed, sorted and
    reversed again, which keeps equal keys in their original order. *)
Section Sorted.
Context {A : Type} (key : A -> value).

Fixpoint insert (x : A) (l : list A) : result (list A) :=
  match l with
  | [] => Ok [x]
  | y :: l' =>
      bind (py_lt (key y) (key x)) (fun b =>
        if b then bind (insert x l') (fun r => Ok (y :: r))
        else Ok (x :: y :: l'))
  end.

Fixpoint sort (l : list A) : result (list A) :=
  match l with
  | [] => Ok []
  | x :: l' => bind (sort l') (insert x)
  end.

Definition sorted (reverse : bool) (l : list A) : result (list A) :=
  if reverse then bind (sort (rev l)) (fun s => Ok (rev s))
  else sort l.
End Sorted.

End Py.

Declare Scope py_scope.
Delimit Scope py_scope with py.
Notation "x <- c ;; k" := (Py.bind c (fun x => k))
  (at level 61, c at next level, right associativity) : py_scope.
Notation "' pat <- c ;; k" := (Py.bind c (fun x => match x with pat => k end))
  (at level 61, pat pattern, c at next level, right associativity) : py_scope.

(** ** The numpy operations the module uses

    A table is the two-dimensional object array [np.array] builds from the
    row lists (every row pairs a datetime with counts and names, so the
    array keeps the Python objects); a column is a one-dimensional one.
    An array built from no row has one dimension only and cannot be read by
    column; the module reads [table_hh2] by column for a key common to both
    periods only, and then the table holds a row
    ([common_key_previous_rows]). *)
Module Np.
Import Py.
Local Open Scope py_scope.

Definition table : Type := list (list value).

Fixpoint mapM {A B : Type} (f : A -> result B) (l : list A)
  : result (list B) :=
  match l with
  | [] => Ok []
  | x :: l' => y <- f x ;; r <- mapM f l' ;; Ok (y :: r)
  end.

(** [a[:, j]] *)
Definition column (a : table) (j : nat) : result (list value) :=
  mapM (fun r => getitem r j) a.

(** [a[a[:, j] == n]] *)
Definition where_eq (a : table) (j : nat) (n : value) : result table :=
  col <- column a j ;;
  Ok (map snd (filter (fun p => py_eq (fst p) n) (combine col a))).

Fixpoint reduce_add (acc : value) (l : list value) : result value :=
  match l with
  | [] => Ok acc
  | x :: l' => s <- py_add acc x ;; reduce_add s l'
  end.

(** [c.sum()]: the elements added left to right, [0] when there are none *)
Definition sum (c : list value) : result value :=
  match c with
  | [] => Ok (VInt 0)
  | x :: c' => reduce_add x c'
  end.

(** [c.mean()]: the sum over the number of elements.  (On no element numpy
    answers nan, which the rational model lacks; the module only takes the
    mean of the rows matching a key both periods hold.) *)
Definition mean (c : list value) : result value :=
  s <- sum c ;;
  py_truediv s (VInt (Z.of_nat (List.length c))).

(** [a[a[:, j].argsort()]]: the rows ordered by column [j] (numpy leaves
    the order of equal elements open; the model keeps it). *)
Definition sort_rows (a : table) (j : nat) : result table :=
  col <- column a j ;;
  s <- Py.sort (@fst value (list value)) (combine col a) ;;
  Ok (map snd s).

(** [c + d] element by element *)
Fixpoint add (c d : list value) : result (list value) :=
  match c, d with
  | x :: c', y :: d' => z <- py_add x y ;; r <- add c' d' ;; Ok (z :: r)
  | _, _ => Ok []
  end.

End Np.

(** ** The ClickHouse client ([chalicelib.utils.ch_client])

    The client is outside the module.  The SQL text of a request is kept as
    the event category that tells the four fixed texts apart together with
    the values the f-string interpolates into it. *)
Module Ch.
Import Py.

Inductive event_type : Type := REQUEST | ERROR | PERFORMANCE | ISSUE_click_rage.

Record query : Type := Query {
  q_event : event_type;
  q_start : string;      (* function.format("toDateTime64('<start_time>', 0)") *)
  q_end : string;        (* function.format("toDateTime64('<end_time>', 0)") *)
  q_steps : Z;
  q_dtime : string;      (* function.format('datetime') *)
  q_project_id : Z
}.

Record ClickHouseClient : Type := Client {
  execute : query -> result (list row)
}.
End Ch.

(** ** [sessions_insights.py] *)
Module Insights.
Import Py Ch.

(** *** Calls to the data source

    A computation answers a value or raises, and leaves the list of the
    requests it sent to the data source, in order. *)
Definition M (A : Type) : Type := (result A * list query)%type.

Definition ret {A : Type} (a : A) : M A := (Ok a, []).
Definition raise {A : Type} (e : exn) : M A := (Raise e, []).
Definition lift {A : Type} (c : result A) : M A := (c, []).

Definition bindM {A B : Type} (c : M A) (k : A -> M B) : M B :=
  match c with
  | (Ok a, sent) => let '(r, sent') := k a in (r, sent ++ sent')
  | (Raise e, sent) => (Raise e, sent)
  end.

(** [conn.execute(query=query)] *)
Definition run (conn : ClickHouseClient) (q : query) : M (list row) :=
  (execute conn q, [q]).

Declare Scope io_scope.
Delimit Scope io_scope with io.
Notation "x <- c ;; k" := (bindM c (fun x => k))
  (at level 61, c at next level, right associativity) : io_scope.
Notation "' pat <- c ;; k" := (bindM c (fun x => match x with pat => k end))
  (at level 61, pat pattern, c at next level, right associativity) : io_scope.

(** [for x in l: s = body(s, x)] *)
Fixpoint for_each {A S : Type} (l : list A) (body : S -> A -> result S)
  (s : S) : result S :=
  match l with
  | [] => Ok s
  | x :: l' => Py.bind (body s x) (for_each l' body)
  end.

(** [[x for x in l if x not in m]] *)
Definition not_in (l m : list value) : list value :=
  filter (fun x => negb (py_in x m)) l.

(** *** [__get_two_values] *)

(** The lists the loop of [__get_two_values] fills. *)
Record locals : Type := Locals {
  table_hh1 : Np.table;
  table_hh2 : Np.table;
  hh_vals : list value;
  names_hh1 : list value;
  names_hh2 : list value
}.

Definition no_rows : locals := Locals [] [] [] [] [].

Local Open Scope py_scope.

(** [for e in table: ...], with its [break] *)
Fixpoint for_rows (time_index_value name_index_val : nat)
  (table : Np.table) (st : locals) : result locals :=
  match table with
  | [] => Ok st
  | e :: rest =>
      t <- getitem e time_index_value ;;
      if negb (py_in t (hh_vals st)) && (List.length (hh_vals st) =? 2)%nat
      then Ok st
      else
        let hh := if negb (py_in t (hh_vals st))
                  then hh_vals st ++ [t] else hh_vals st in
        if (List.length hh =? 1)%nat then
          n <- getitem e name_index_val ;;
          for_rows time_index_value name_index_val rest
            (Locals (table_hh1 st ++ [e]) (table_hh2 st) hh
               (if negb (py_in n (names_hh1 st))
                then names_hh1 st ++ [n] else names_hh1 st)
               (names_hh2 st))
        else if (List.length hh =? 2)%nat then
          n <- getitem e name_index_val ;;
          for_rows time_index_value name_index_val rest
            (Locals (table_hh1 st) (table_hh2 st ++ [e]) hh
               (names_hh1 st)
               (if negb (py_in n (names_hh2 st))
                then names_hh2 st ++ [n] else names_hh2 st))
        else
          for_rows time_index_value name_index_val rest
            (Locals (table_hh1 st) (table_hh2 st) hh
               (names_hh1 st) (names_hh2 st))
  end.

Definition __get_two_values (response : list row)
  (time_index name_index : string)
  : result (Np.table * Np.table * list string * list value * list value) :=
  r0 <- getitem response 0 ;;
  let columns := keys r0 in
  name_index_val <- index columns name_index ;;
  time_index_value <- index columns time_index ;;
  let table := map values response in
  st <- for_rows time_index_value name_index_val table no_rows ;;
  Ok (table_hh1 st, table_hh2 st, columns, names_hh1 st, names_hh2 st).

(** *** [__handle_timestep] *)

(** [template.format(arg)] for a template whose only field is [{0}] *)
Fixpoint format (template arg : string) : string :=
  match template with
  | String "{" (String "0" (String "}" rest)) => arg ++ format rest arg
  | String c rest => String c (format rest arg)
  | EmptyString => EmptyString
  end.

Definition __handle_timestep (time_step : value) : result (string * Z) :=
  let base := "{0}"%string in
  if py_eq time_step (VStr "hour") then
    Ok (("toStartOfHour(" ++ base ++ ")")%string, 3600%Z)
  else if py_eq time_step (VStr "day") then
    Ok (("toStartOfDay(" ++ base ++ ")")%string, (24 * 3600)%Z)
  else if py_eq time_step (VStr "week") then
    Ok (("toStartOfWeek(" ++ base ++ ")")%string, (7 * 24 * 3600)%Z)
  else
    match time_step with
    | VInt n =>
        Ok (("toStartOfInterval(" ++ base ++ ", INTERVAL "
               ++ str_of_int n ++ " minute)")%string, (n * 60)%Z)
    | _ => Raise AssertionError
    end.

(** The request of one category: the values its f-string interpolates. *)
Definition make_query (event : event_type) (function : string) (steps : Z)
  (project_id : Z) (start_time end_time : string) : query :=
  {| q_event := event;
     q_start := format function ("toDateTime64('" ++ start_time ++ "', 0)");
     q_end := format function ("toDateTime64('" ++ end_time ++ "', 0)");
     q_steps := steps;
     q_dtime := format function "datetime";
     q_project_id := project_id |}.

(** *** The four analytics and [fetch_selected] *)

(** The value under [ratio], [increase] and [new_events]. *)
Record comparison : Type := Comparison {
  ratio : list (value * value);
  increase : list (value * value);
  new_events : list value
}.

(** What a category function returns: the dictionary of the comparison,
    or the rows of the data source as they came. *)
Inductive output : Type :=
| Compared (c : comparison)
| RawRows (res : list row).

(** [output[name] = v] *)
Fixpoint report_set (d : list (string * output)) (name : string) (v : output)
  : list (string * output) :=
  match d with
  | [] => [(name, v)]
  | (k, w) :: d' =>
      if String.eqb k name then (k, v) :: d' else (k, w) :: report_set d' name v
  end.

(** [output.get(name)] *)
Fixpoint report_get (d : list (string * output)) (name : string)
  : option output :=
  match d with
  | [] => None
  | (k, w) :: d' => if String.eqb k name then Some w else report_get d' name
  end.

Section DataSource.

(** The client [ch_client.ClickHouseClient(database='experimental')]
    opens. *)
Variable experimental : ClickHouseClient.

Definition connect (conn : option ClickHouseClient) : ClickHouseClient :=
  match conn with
  | None => experimental
  | Some c => c
  end.

Definition query_requests_by_period (project_id : Z)
  (start_time end_time : string) (time_step : value)
  (conn : option ClickHouseClient) : M output :=
  (' (function, steps) <- lift (__handle_timestep time_step) ;;
   let query :=
     make_query REQUEST function steps project_id start_time end_time in
   res <- run (connect conn) query ;;
   lift (
     ' (table_hh1, table_hh2, columns, this_period_hosts, last_period_hosts)
       <- __get_two_values res "hh" "source" ;;
     let new_hosts := not_in this_period_hosts last_period_hosts in
     let common_names := not_in this_period_hosts new_hosts in
     source_idx <- index columns "source" ;;
     duration_idx <- index columns "avg_duration" ;;
     success_idx <- index columns "success_rate" ;;
     ' (d1_tmp, delta_duration, delta_success) <-
       for_each common_names
         (fun '(_, delta_duration, delta_success) n =>
            d1_tmp <- Np.where_eq table_hh1 source_idx n ;;
            d2_tmp <- Np.where_eq table_hh2 source_idx n ;;
            c1 <- Np.column d1_tmp duration_idx ;;
            m1 <- Np.mean c1 ;;
            c2 <- Np.column d2_tmp duration_idx ;;
            m2 <- Np.mean c2 ;;
            dd <- py_sub m1 m2 ;;
            c1 <- Np.column d1_tmp success_idx ;;
            m1 <- Np.mean c1 ;;
            c2 <- Np.column d2_tmp success_idx ;;
            m2 <- Np.mean c2 ;;
            ds <- py_sub m1 m2 ;;
            Ok (Some d1_tmp, dict_set delta_duration n dd,
                dict_set delta_success n ds))
         (None, [], []) ;;
     names_idx <- index columns "names" ;;
     d1_tmp <- match d1_tmp with
               | Some d => Ok d
               | None => Raise UnboundLocalError
               end ;;
     d1_tmp <- Np.sort_rows d1_tmp success_idx ;;
     c_names <- Np.column d1_tmp names_idx ;;
     c_source <- Np.column d1_tmp source_idx ;;
     labels <- Np.add c_names c_source ;;
     c_success <- Np.column d1_tmp success_idx ;;
     by_delta <- sorted (@snd value value) false delta_success ;;
     Ok (Compared {| ratio := combine labels c_success;
                     increase := by_delta;
                     new_events := new_hosts |}))%py)%io.

Definition query_most_errors_by_period (project_id : Z)
  (start_time end_time : string) (time_step : value)
  (conn : option ClickHouseClient) : M output :=
  (' (function, steps) <- lift (__handle_timestep time_step) ;;
   let query :=
     make_query ERROR function steps project_id start_time end_time in
   res <- run (connect conn) query ;;
   lift (
     ' (table_hh1, table_hh2, columns, this_period_errors, last_period_errors)
       <- __get_two_values res "hh" "names" ;;
     let new_errors := not_in this_period_errors last_period_errors in
     let common_errors := not_in this_period_errors new_errors in
     sessions_idx <- index columns "sessions" ;;
     names_idx <- index columns "names" ;;
     c <- Np.column table_hh1 sessions_idx ;;
     total <- Np.sum c ;;
     percentage_errors <-
       for_each this_period_errors
         (fun percentage_errors n =>
            rows <- Np.where_eq table_hh1 names_idx n ;;
            c <- Np.column rows sessions_idx ;;
            s <- Np.sum c ;;
            share <- py_truediv s total ;;
            Ok (dict_set percentage_errors n share))
         [] ;;
     error_increase <-
       for_each common_errors
         (fun error_increase n =>
            rows1 <- Np.where_eq table_hh1 names_idx n ;;
            c1 <- Np.column rows1 names_idx ;;
            s1 <- Np.sum c1 ;;
            rows2 <- Np.where_eq table_hh2 names_idx n ;;
            c2 <- Np.column rows2 names_idx ;;
            s2 <- Np.sum c2 ;;
            delta <- py_sub s1 s2 ;;
            Ok (dict_set error_increase n delta))
         [] ;;
     by_share <- sorted (@snd value value) true percentage_errors ;;
     by_delta <- sorted (@snd value value) true error_increase ;;
     Ok (Compared {| ratio := by_share;
                     increase := by_delta;
                     new_events := new_errors |}))%py)%io.

(** The function returns the rows before the comparison written under
    the [return]. *)
Definition query_cpu_memory_by_period (project_id : Z)
  (start_time end_time : string) (time_step : value)
  (conn : option ClickHouseClient) : M output :=
  (' (function, steps) <- lift (__handle_timestep time_step) ;;
   let query :=
     make_query PERFORMANCE function steps project_id start_time end_time in
   res <- run (connect conn) query ;;
   ret (RawRows res))%io.

(** As [query_cpu_memory_by_period]: the rows are returned as they came. *)
Definition query_click_rage_by_period (project_id : Z)
  (start_time end_time : string) (time_step : value)
  (conn : option ClickHouseClient) : M output :=
  (' (function, steps) <- lift (__handle_timestep time_step) ;;
   let query :=
     make_query ISSUE_click_rage function steps project_id start_time
       end_time in
   res <- run (connect conn) query ;;
   ret (RawRows res))%io.

Definition fetch_selected (selectedEvents : list string) (project_id : Z)
  (start_time end_time : string) (time_step : value)
  : M (list (string * output)) :=
  (if (0 <? List.length selectedEvents)%nat then
     let output := [] in
     let conn := Some experimental in
     output <-
       (if str_in "errors" selectedEvents then
          r <- query_most_errors_by_period project_id start_time end_time
                 time_step conn ;;
          ret (report_set output "errors" r)
        else ret output) ;;
     output <-
       (if str_in "network" selectedEvents then
          r <- query_requests_by_period project_id start_time end_time
                 time_step conn ;;
          ret (report_set output "network" r)
        else ret output) ;;
     output <-
       (if str_in "rage" selectedEvents then
          r <- query_click_rage_by_period project_id start_time end_time
                 time_step conn ;;
          ret (report_set output "rage" r)
        else ret output) ;;
     output <-
       (if str_in "resources" selectedEvents then
          r <- query_cpu_memory_by_period project_id start_time end_time
                 time_step conn ;;
          ret (report_set output "resources" r)
        else ret output) ;;
     ret output
   else raise AssertionError)%io.

End DataSource.

End Insights.

(** ** Notions the properties are stated with *)
Module Periods.
Import Py.

(** The bucket timestamp of a table row, when column [j] holds a
    datetime. *)
Definition bucket (j : nat) (e : list value) : option Z :=
  match nth_error e j with
  | Some (VTime t) => Some t
  | _ => None
  end.

Definition in_bucket (j : nat) (t : Z) (e : list value) : bool :=
  match bucket j e with
  | Some t' => Z.eqb t' t
  | None => false
  end.

Definition not_after (j : nat) (t : Z) (e : list value) : bool :=
  match bucket j e with
  | Some t' => Z.leb t' t
  | None => false
  end.

(** The rows are ordered descending by bucket timestamp. *)
Fixpoint descending (j : nat) (table : Np.table) : bool :=
  match table with
  | [] => true
  | e :: rest =>
      match bucket j e with
      | Some t => forallb (not_after j t) rest && descending j rest
      | None => false
      end
  end.

Definition first_bucket (j : nat) (table : Np.table) : option Z :=
  match table with
  | [] => None
  | e :: _ => bucket j e
  end.

(** The bucket of the first row that is not in the first bucket. *)
Definition second_bucket (j : nat) (table : Np.table) : option Z :=
  match first_bucket j table with
  | Some t =>
      match find (fun e => negb (in_bucket j t e)) table with
      | Some e => bucket j e
      | None => None
      end
  | None => None
  end.

Definition rows_of (j : nat) (b : option Z) (table : Np.table) : Np.table :=
  match b with
  | Some t => filter (in_bucket j t) table
  | None => []
  end.

(** The key column of a table. *)
Definition names_of (j : nat) (table : Np.table) : list value :=
  map (fun e => nth j e VNone) table.

(** The distinct values of a list in first-seen order. *)
Fixpoint seen_into (acc l : list value) : list value :=
  match l with
  | [] => acc
  | n :: l' => seen_into (if py_in n acc then acc else acc ++ [n]) l'
  end.

Definition first_seen (l : list value) : list value := seen_into [] l.

(** Every row has the columns of the first one. *)
Definition same_columns (response : list row) : Prop :=
  match response with
  | [] => True
  | r0 :: _ => Forall (fun r => keys r = keys r0) response
  end.

(** *** Rows of the errors request: [hh, sessions, names, sources] *)

Definition errors_row (r : row) : bool :=
  match r with
  | [(c0, VTime _); (c1, VInt _); (c2, n); (c3, VList _)] =>
      String.eqb c0 "hh" && String.eqb c1 "sessions"
      && String.eqb c2 "names" && String.eqb c3 "sources"
      && match n with VStr _ | VNone => true | _ => false end
  | _ => false
  end.

(** The cells of such a row. *)
Definition errors_cells (e : list value) : bool :=
  match e with
  | [VTime _; VInt _; n; VList _] =>
      match n with VStr _ | VNone => true | _ => false end
  | _ => false
  end.

Definition errors_columns : list string :=
  ["hh"; "sessions"; "names"; "sources"]%string.

(** Keys that are pairwise different for [==]. *)
Fixpoint distinct (l : list value) : Prop :=
  match l with
  | [] => True
  | x :: l' => py_in x l' = false /\ distinct l'
  end.

Definition sessions_of (e : list value) : Z :=
  match nth_error e 1 with
  | Some (VInt s) => s
  | _ => 0%Z
  end.

Definition sessions_total (t : Np.table) : Z :=
  fold_right (fun e a => (sessions_of e + a)%Z) 0%Z t.

(** The session count of the rows of [t] whose name is [k]. *)
Definition sessions_for (k : value) (t : Np.table) : Z :=
  sessions_total (filter (fun e => py_eq (nth 2 e VNone) k) t).

Definition share_of (p : value * value) : Q :=
  match as_number (snd p) with
  | Some q => q
  | None => 0%Q
  end.

Definition is_float (p : value * value) : Prop :=
  exists q, snd p = VFloat q.

(** [a] has at most the share of [b]. *)
Definition by_share (a b : value * value) : Prop :=
  (share_of a <= share_of b)%Q.


(** *** The time step and the build *)

(** The bucket width [__handle_timestep] answers. *)
Definition bucket_seconds (time_step : value) : result Z :=
  match Insights.__handle_timestep time_step with
  | Ok (_, steps) => Ok steps
  | Raise e => Raise e
  end.

(** The category functions by the name [fetch_selected] files them under,
    called as it calls them. *)
Definition category (experimental : Ch.ClickHouseClient) (project_id : Z)
  (start_time end_time : string) (time_step : value) (name : string)
  : option (Insights.M Insights.output) :=
  let conn := Some experimental in
  if String.eqb name "errors" then
    Some (Insights.query_most_errors_by_period experimental project_id
            start_time end_time time_step conn)
  else if String.eqb name "network" then
    Some (Insights.query_requests_by_period experimental project_id
            start_time end_time time_step conn)
  else if String.eqb name "rage" then
    Some (Insights.query_click_rage_by_period experimental project_id
            start_time end_time time_step conn)
  else if String.eqb name "resources" then
    Some (Insights.query_cpu_memory_by_period experimental project_id
            start_time end_time time_step conn)
  else None.

(** The order in which [fetch_selected] looks for the names. *)
Definition build_order : list string :=
  ["errors"; "network"; "rage"; "resources"]%string.

(** The categories a selection has computed, in that order. *)
Definition attempted (selectedEvents : list string) : list string :=
  filter (fun name => str_in name selectedEvents) build_order.

Definition succeeds {A : Type} (m : option (Insights.M A)) : Prop :=
  exists c out, m = Some c /\ fst c = Ok out.

Definition requests_of {A : Type} (m : option (Insights.M A))
  : list Ch.query :=
  match m with
  | Some c => snd c
  | None => []
  end.

(** The categories of a list computed one after the other. *)
Fixpoint compute_all (call : string -> option (Insights.M Insights.output))
  (names : list string) (output : list (string * Insights.output))
  : Insights.M (list (string * Insights.output)) :=
  match names with
  | [] => Insights.ret output
  | name :: rest =>
      match call name with
      | Some c =>
          Insights.bindM c (fun r =>
            compute_all call rest (Insights.report_set output name r))
      | None => compute_all call rest output
      end
  end.

(** *** Notions for the other properties of the module *)

(** Row [e] holds in column [j] one of the timestamps [hh]. *)
Definition carries (j : nat) (hh : list value) (e : list value) : Prop :=
  exists v, nth_error e j = Some v /\ py_in v hh = true.

(** What the scan keeps true of its lists once the first row, of timestamp
    [t0], was read. *)
Definition scan_invariant (j : nat) (t0 : value) (st : Insights.locals)
  : Prop :=
  Forall (carries j [t0]) (Insights.table_hh1 st) /\
  ((Insights.hh_vals st = [t0] /\ Insights.table_hh2 st = []) \/
   exists v1, Insights.hh_vals st = [t0; v1] /\ py_in v1 [t0] = false /\
              Forall (carries j [t0; v1]) (Insights.table_hh2 st)).

(** The event category each name of [fetch_selected] asks for. *)
Definition event_of (name : string) : option Ch.event_type :=
  if String.eqb name "errors" then Some Ch.ERROR
  else if String.eqb name "network" then Some Ch.REQUEST
  else if String.eqb name "rage" then Some Ch.ISSUE_click_rage
  else if String.eqb name "resources" then Some Ch.PERFORMANCE
  else None.

(** The ClickHouse bucketing call on [arg] for a time step. *)
Definition bucketing_call (time_step : value) (arg : string) : string :=
  match time_step with
  | VInt n =>
      ("toStartOfInterval(" ++ arg ++ ", INTERVAL " ++ str_of_int n
         ++ " minute)")%string
  | _ =>
      if py_eq time_step (VStr "hour") then ("toStartOfHour(" ++ arg ++ ")")%string
      else if py_eq time_step (VStr "day") then
        ("toStartOfDay(" ++ arg ++ ")")%string
      else ("toStartOfWeek(" ++ arg ++ ")")%string
  end.

(** No character of [s] opens a replacement field. *)
Fixpoint no_brace (s : string) : Prop :=
  match s with
  | EmptyString => True
  | String c s' => c <> "{"%char /\ no_brace s'
  end.

(** What a computation answers, when it answers. *)
Definition answer_of {A : Type} (m : option (Insights.M A)) : option A :=
  match m with
  | Some (Ok a, _) => Some a
  | _ => None
  end.

(** *** Rows of the requests request:
    [hh, sessions, success_rate, names, source, avg_duration] *)

Definition request_columns : list string :=
  ["hh"; "sessions"; "success_rate"; "names"; "source"; "avg_duration"]%string.

Definition request_cells (e : list value) : bool :=
  match e with
  | [VTime _; VInt _; VFloat _; VStr _; VStr _; VFloat _] => true
  | _ => false
  end.

Definition typed_request_row (r : row) : bool :=
  list_eqb String.eqb (keys r) request_columns && request_cells (values r).

(** The success rate, the mean duration and the label (host then path) of a
    row. *)
Definition rate_of (e : list value) : Q :=
  match nth_error e 2 with
  | Some (VFloat q) => q
  | _ => 0%Q
  end.

Definition duration_of (e : list value) : Q :=
  match nth_error e 5 with
  | Some (VFloat q) => q
  | _ => 0%Q
  end.

Definition label_of (e : list value) : value :=
  match nth_error e 3, nth_error e 4 with
  | Some (VStr host), Some (VStr path) => VStr (host ++ path)
  | _, _ => VNone
  end.

(** The rows of [t] whose path is [k]. *)
Definition rows_for (k : value) (t : Np.table) : Np.table :=
  filter (fun e => py_eq (nth 4 e VNone) k) t.

(** The sum of floats taken left to right, and their mean. *)
Definition float_total (qs : list Q) : Q :=
  match qs with
  | [] => 0%Q
  | q :: qs' => fold_left Qplus qs' q
  end.

Definition mean_floats (qs : list Q) : Q :=
  (float_total qs / inject_Z (Z.of_nat (List.length qs)))%Q.

Definition mean_rate (k : value) (t : Np.table) : Q :=
  mean_floats (map rate_of (rows_for k t)).

(** Pairs ordered by ascending number in second place. *)
Definition number_of (v : value) : Q :=
  match as_number v with
  | Some q => q
  | None => 0%Q
  end.

End Periods.

(** ** Sample data *)
Module Samples.
Import Py Ch.
Local Open Scope string_scope.
Local Open Scope Z_scope.

Definition error_row (t s : Z) (n : string) : row :=
  [("hh", VTime t); ("sessions", VInt s); ("names", VStr n);
   ("sources", VList [])].

(** A data source that answers every request with [rows]. *)
Definition source (rows : list row) : ClickHouseClient :=
  Client (fun _ => Ok rows).

(** Buckets T2 > T1 > T0. *)
Definition T2 : Z := 1650412800.
Definition T1 : Z := 1650409200.
Definition T0 : Z := 1650405600.

Definition five_rows : list row :=
  [error_row T2 3 "A"; error_row T2 1 "B"; error_row T1 2 "C";
   error_row T1 5 "D"; error_row T0 7 "E"].

Definition disjoint_rows : list row :=
  [error_row T2 10 "E"; error_row T2 30 "F"; error_row T1 4 "G"].

Definition common_rows : list row :=
  [error_row T2 10 "B"; error_row T1 4 "B"].

Definition no_session_rows : list row := [error_row T2 0 ""].

Definition one_bucket_rows : list row :=
  [error_row T2 3 "A"; error_row T2 1 "B"].

Definition request_row (t s : Z) (rate : Q) (host path : string) (d : Q)
  : row :=
  [("hh", VTime t); ("sessions", VInt s); ("success_rate", VFloat rate);
   ("names", VStr host); ("source", VStr path); ("avg_duration", VFloat d)].

Definition one_bucket_requests : list row :=
  [request_row T2 3 (9 # 10) "a.io" "/x" (120 # 1);
   request_row T2 1 (1 # 2) "a.io" "/y" (80 # 1)].

(** The arguments of the module's own example run. *)
Definition project : Z := 1307.
Definition start : string := "2022-04-19".
Definition stop : string := "2022-04-21".
Definition hour : value := VStr "hour".

Definition errors_query : query :=
  {| q_event := ERROR;
     q_start := "toStartOfHour(toDateTime64('2022-04-19', 0))";
     q_end := "toStartOfHour(toDateTime64('2022-04-21', 0))";
     q_steps := 3600;
     q_dtime := "toStartOfHour(datetime)";
     q_project_id := 1307 |}.

(** Rows out of order: a row of the first bucket after the second one. *)
Definition unordered_rows : list row :=
  [error_row T2 3 "A"; error_row T1 2 "C"; error_row T2 1 "B"].

Definition two_bucket_requests : list row :=
  [request_row T2 3 (9 # 10) "a.io" "/x" (120 # 1);
   request_row T2 1 (1 # 2) "b.io" "/x" (80 # 1);
   request_row T2 4 (3 # 4) "a.io" "/new" (50 # 1);
   request_row T1 2 (1 # 1) "a.io" "/x" (100 # 1)].

End Samples.

Import Py Ch Insights Periods.
Local Open Scope string_scope.
Local Open Scope list_scope.

(** * Properties *)

(** ** Equality of Python values *)

Lemma list_eqb_string_eq (l m : list string) :
  list_eqb String.eqb l m = true <-> l = m.
Proof.
  revert m; induction l as [|x l IH]; intros [|y m]; simpl; split;
    try congruence; try reflexivity.
  - intros H. apply andb_true_iff in H as [H1 H2].
    apply String.eqb_eq in H1. apply IH in H2. congruence.
  - intros H. injection H as -> ->.
    rewrite String.eqb_refl. simpl. now apply IH.
Qed.

Ltac py_eq_props :=
  repeat match goal with
    | H : Z.eqb _ _ = true |- _ => apply Z.eqb_eq in H
    | H : Qeq_bool _ _ = true |- _ => apply Qeq_bool_iff in H
    | H : String.eqb _ _ = true |- _ => apply String.eqb_eq in H
    | H : list_eqb String.eqb _ _ = true |- _ => apply list_eqb_string_eq in H
    | |- Z.eqb _ _ = true => apply Z.eqb_eq
    | |- Qeq_bool _ _ = true => apply Qeq_bool_iff
    | |- String.eqb _ _ = true => apply String.eqb_eq
    | |- list_eqb String.eqb _ _ = true => apply list_eqb_string_eq
    end.

Lemma py_eq_refl (a : value) : py_eq a a = true.
Proof. destruct a; simpl; py_eq_props; reflexivity. Qed.

Lemma py_eq_sym (a b : value) : py_eq a b = true -> py_eq b a = true.
Proof.
  destruct a, b; simpl; try discriminate; intros H; py_eq_props;
    try (symmetry; exact H); reflexivity.
Qed.

Lemma py_eq_trans (a b c : value) :
  py_eq a b = true -> py_eq b c = true -> py_eq a c = true.
Proof.
  destruct a, b, c; simpl; try discriminate; intros H1 H2; py_eq_props;
    try congruence;
    try (apply inject_Z_injective; eapply Qeq_trans; eassumption);
    try (eapply Qeq_trans; eassumption).
Qed.

(** ** The time step *)

(** C5 (amended): 'hour', 'day' and 'week' resolve to 3600, 86400 and 604800
    seconds and every integer [n], zero and negative ones included, to
    [n * 60] seconds; every other value fails the assertion of
    [__handle_timestep]. *)
Theorem handle_timestep_cases :
  bucket_seconds (VStr "hour") = Ok 3600%Z /\
  bucket_seconds (VStr "day") = Ok 86400%Z /\
  bucket_seconds (VStr "week") = Ok 604800%Z /\
  (forall n : Z, bucket_seconds (VInt n) = Ok (n * 60)%Z) /\
  (forall time_step : value,
      time_step <> VStr "hour" -> time_step <> VStr "day" ->
      time_step <> VStr "week" -> (forall n, time_step <> VInt n) ->
      __handle_timestep time_step = Raise AssertionError).
Proof.
  repeat split; try reflexivity.
  intros time_step Hh Hd Hw Hn.
  unfold __handle_timestep.
  destruct time_step as [| n | q | s | t | l]; simpl; try reflexivity.
  - now elim (Hn n).
  - destruct (String.eqb s "hour") eqn:E1.
    { apply String.eqb_eq in E1. now subst. }
    destruct (String.eqb s "day") eqn:E2.
    { apply String.eqb_eq in E2. now subst. }
    destruct (String.eqb s "week") eqn:E3.
    { apply String.eqb_eq in E3. now subst. }
    reflexivity.
Qed.

Lemma handle_timestep_cases_witness :
  bucket_seconds (VInt 15) = Ok 900%Z /\
  __handle_timestep (VStr "fortnight") = Raise AssertionError.
Proof.
  destruct handle_timestep_cases as (_ & _ & _ & Hint & Hbad).
  split.
  - exact (Hint 15%Z).
  - apply Hbad; discriminate.
Defined.

(** C5 (as stated) fails: zero and negative minute counts are accepted. *)
Lemma handle_timestep_accepts_nonpositive :
  bucket_seconds (VInt 0) = Ok 0%Z /\
  bucket_seconds (VInt (-5)) = Ok (-300)%Z.
Proof. split; reflexivity. Qed.

(** ** The build *)

Section Build.
Variable experimental : ClickHouseClient.
Variables (project_id : Z) (start_time end_time : string).
Variable time_step : value.

Let call := category experimental project_id start_time end_time time_step.

Lemma bindM_ret {A B : Type} (a : A) (k : A -> M B) :
  bindM (ret a) k = k a.
Proof. unfold bindM, ret. destruct (k a). reflexivity. Qed.

Lemma bindM_bindM {A B C : Type} (c : M A) (k : A -> M B) (h : B -> M C) :
  bindM (bindM c k) h = bindM c (fun a => bindM (k a) h).
Proof.
  destruct c as [[a|e] sent]; simpl; [|reflexivity].
  destruct (k a) as [[b|e] sent']; simpl; [|reflexivity].
  destruct (h b) as [r sent'']. now rewrite app_assoc.
Qed.

(** [fetch_selected] computes the attempted categories in order. *)
Lemma fetch_selected_compute_all (selectedEvents : list string) :
  selectedEvents <> [] ->
  fetch_selected experimental selectedEvents project_id start_time end_time
    time_step
  = compute_all call (attempted selectedEvents) [].
Proof.
  intros Hne. unfold fetch_selected, attempted, build_order, call, category.
  destruct selectedEvents as [|s0 sel]; [congruence|].
  change (0 <? List.length (s0 :: sel))%nat with true. cbv iota.
  cbn [filter].
  generalize (query_most_errors_by_period experimental project_id start_time
                end_time time_step (Some experimental)).
  generalize (query_requests_by_period experimental project_id start_time
                end_time time_step (Some experimental)).
  generalize (query_click_rage_by_period experimental project_id start_time
                end_time time_step (Some experimental)).
  generalize (query_cpu_memory_by_period experimental project_id start_time
                end_time time_step (Some experimental)).
  intros [[r4|e4] s4] [[r3|e3] s3] [[r2|e2] s2] [[r1|e1] s1].
  all: destruct (str_in "errors" (s0 :: sel));
    destruct (str_in "network" (s0 :: sel));
    destruct (str_in "rage" (s0 :: sel));
    destruct (str_in "resources" (s0 :: sel));
    cbn; rewrite ?app_nil_r, <- ?app_assoc; reflexivity.
Qed.

Lemma str_in_In (x : string) (l : list string) :
  str_in x l = true <-> In x l.
Proof.
  unfold str_in. rewrite existsb_exists. split.
  - intros (y & Hy & E). apply String.eqb_eq in E. now subst.
  - intros H. exists x. split; [exact H | apply String.eqb_refl].
Qed.

Lemma str_in_false (x : string) (l : list string) :
  ~ In x l -> str_in x l = false.
Proof.
  intros H. destruct (str_in x l) eqn:E; [|reflexivity].
  apply str_in_In in E. contradiction.
Qed.

Lemma compute_all_first_failure (pre post : list string) (name : string)
  (c : M output) (e : exn) :
  forall acc,
    Forall (fun n => succeeds (call n)) pre ->
    call name = Some c -> fst c = Raise e ->
    compute_all call (pre ++ name :: post) acc
    = (Raise e, (flat_map (fun n => requests_of (call n)) pre ++ snd c)%list).
Proof.
  induction pre as [|n pre IH]; intros acc Hpre Hc He.
  - simpl. rewrite Hc. destruct c as [[r|e'] sent]; simpl in *; congruence.
  - inversion Hpre as [|? ? (m & out & Hm & Hout) Hpre']; subst.
    simpl. rewrite Hm. destruct m as [[r|e'] sent]; simpl in *; [|congruence].
    rewrite (IH (report_set acc n r) Hpre' Hc He).
    now rewrite app_assoc.
Qed.

(** C9 (amended): the selected categories are computed in the order errors,
    network, rage, resources, and the first one that fails ends the build:
    its exception leaves [fetch_selected], no report is returned, and only
    the requests of the categories up to the failing one were sent. *)
Theorem fetch_selected_first_failure (selectedEvents pre post : list string)
  (name : string) (c : M output) (e : exn) :
  attempted selectedEvents = pre ++ name :: post ->
  Forall (fun n => succeeds (call n)) pre ->
  call name = Some c ->
  fst c = Raise e ->
  fetch_selected experimental selectedEvents project_id start_time end_time
    time_step
  = (Raise e, (flat_map (fun n => requests_of (call n)) pre ++ snd c)%list).
Proof.
  intros Hsel Hpre Hc He.
  rewrite fetch_selected_compute_all.
  - rewrite Hsel. now apply compute_all_first_failure.
  - intros ->. destruct pre; discriminate.
Qed.

(** C10: a non-empty selection holding none of the four names gives the
    empty report; nothing is raised and no request is sent. *)
Theorem fetch_selected_unrecognized (selectedEvents : list string) :
  selectedEvents <> [] ->
  (forall name, In name build_order -> ~ In name selectedEvents) ->
  fetch_selected experimental selectedEvents project_id start_time end_time
    time_step
  = (Ok [], []).
Proof.
  intros Hne Hnone.
  rewrite fetch_selected_compute_all by exact Hne.
  unfold attempted, build_order. cbn [filter].
  rewrite !str_in_false; [reflexivity | | | |];
    apply Hnone; unfold build_order; simpl; tauto.
Qed.

Lemma click_rage_returns_rows (conn : option ClickHouseClient) (out : output) :
  fst (query_click_rage_by_period experimental project_id start_time end_time
         time_step conn) = Ok out ->
  exists function steps res,
    __handle_timestep time_step = Ok (function, steps) /\
    execute (connect experimental conn)
      (make_query ISSUE_click_rage function steps project_id start_time
         end_time) = Ok res /\
    out = RawRows res.
Proof.
  unfold query_click_rage_by_period, lift, run.
  destruct (__handle_timestep time_step) as [[function steps]|e];
    [|discriminate].
  cbn -[make_query].
  destruct (execute _ _) as [res|e] eqn:E; cbn; [|discriminate].
  intros [= <-]. now exists function, steps, res.
Qed.

Lemma cpu_memory_returns_rows (conn : option ClickHouseClient) (out : output) :
  fst (query_cpu_memory_by_period experimental project_id start_time end_time
         time_step conn) = Ok out ->
  exists function steps res,
    __handle_timestep time_step = Ok (function, steps) /\
    execute (connect experimental conn)
      (make_query PERFORMANCE function steps project_id start_time
         end_time) = Ok res /\
    out = RawRows res.
Proof.
  unfold query_cpu_memory_by_period, lift, run.
  destruct (__handle_timestep time_step) as [[function steps]|e];
    [|discriminate].
  cbn -[make_query].
  destruct (execute _ _) as [res|e] eqn:E; cbn; [|discriminate].
  intros [= <-]. now exists function, steps, res.
Qed.

(** C7 (what the code does): in a report [fetch_selected] returns, the slot
    of rage and the slot of resources hold the rows of the data source as
    they came, not a comparison. *)
Theorem fetch_selected_raw_rows (selectedEvents : list string)
  (report : list (string * output)) :
  fst (fetch_selected experimental selectedEvents project_id start_time
         end_time time_step) = Ok report ->
  (In "rage" selectedEvents ->
   exists function steps res,
     __handle_timestep time_step = Ok (function, steps) /\
     execute experimental
       (make_query ISSUE_click_rage function steps project_id start_time
          end_time) = Ok res /\
     report_get report "rage" = Some (RawRows res)) /\
  (In "resources" selectedEvents ->
   exists function steps res,
     __handle_timestep time_step = Ok (function, steps) /\
     execute experimental
       (make_query PERFORMANCE function steps project_id start_time
          end_time) = Ok res /\
     report_get report "resources" = Some (RawRows res)).
Proof.
  pose proof (click_rage_returns_rows (Some experimental)) as Hrage.
  pose proof (cpu_memory_returns_rows (Some experimental)) as Hcpu.
  unfold connect in Hrage, Hcpu.
  unfold fetch_selected.
  destruct (0 <? List.length selectedEvents)%nat; [|discriminate].
  rewrite <- !str_in_In.
  revert Hrage Hcpu.
  generalize (query_most_errors_by_period experimental project_id start_time
                end_time time_step (Some experimental)).
  generalize (query_requests_by_period experimental project_id start_time
                end_time time_step (Some experimental)).
  generalize (query_click_rage_by_period experimental project_id start_time
                end_time time_step (Some experimental)).
  generalize (query_cpu_memory_by_period experimental project_id start_time
                end_time time_step (Some experimental)).
  intros [[r4|e4] s4] [[r3|e3] s3] [[r2|e2] s2] [[r1|e1] s1] Hrage Hcpu.
  all: destruct (str_in "errors" selectedEvents);
    destruct (str_in "network" selectedEvents);
    destruct (str_in "rage" selectedEvents);
    destruct (str_in "resources" selectedEvents);
    cbn; try discriminate; intros [= <-]; split; try discriminate; intros _.
  all: first
    [ destruct (Hrage _ eq_refl) as (f & st & res & H1 & H2 & ->);
      exists f, st, res; repeat split; assumption
    | destruct (Hcpu _ eq_refl) as (f & st & res & H1 & H2 & ->);
      exists f, st, res; repeat split; assumption ].
Qed.

End Build.

(** ** New and common keys *)

Lemma py_in_true (x : value) (l : list value) :
  py_in x l = true <-> exists y, In y l /\ py_eq y x = true.
Proof. unfold py_in. apply existsb_exists. Qed.

Lemma py_in_not_in (x : value) (l m : list value) :
  In x l -> py_in x (not_in l m) = negb (py_in x m).
Proof.
  intros Hx. destruct (py_in x m) eqn:Em; simpl.
  - destruct (py_in x (not_in l m)) eqn:E; [|reflexivity].
    apply py_in_true in E as (y & Hy & Eyx).
    apply filter_In in Hy as [_ Hy]. apply negb_true_iff in Hy.
    apply py_in_true in Em as (z & Hz & Ezx).
    assert (py_in y m = true); [|congruence].
    apply py_in_true. exists z. split; [exact Hz|].
    eapply py_eq_trans; [exact Ezx | now apply py_eq_sym].
  - apply py_in_true. exists x. split; [|apply py_eq_refl].
    apply filter_In. split; [exact Hx | now rewrite Em].
Qed.

(** C2: the new keys are the current keys that are not previous keys, and
    the common keys, computed as the current keys that are not new, are the
    current keys that are previous keys; both keep the order of the current
    keys. *)
Theorem new_and_common_keys (current_keys previous_keys : list value) :
  let new_keys := not_in current_keys previous_keys in
  let common_keys := not_in current_keys new_keys in
  new_keys = filter (fun x => negb (py_in x previous_keys)) current_keys /\
  common_keys = filter (fun x => py_in x previous_keys) current_keys /\
  (forall x, In x current_keys ->
             (In x new_keys <-> py_in x previous_keys = false) /\
             (In x common_keys <-> py_in x previous_keys = true)).
Proof.
  cbv zeta.
  assert (Hcommon : not_in current_keys (not_in current_keys previous_keys)
                    = filter (fun x => py_in x previous_keys) current_keys).
  { unfold not_in at 1. apply filter_ext_in. intros x Hx.
    rewrite py_in_not_in by exact Hx. apply negb_involutive. }
  split; [reflexivity|]. split; [exact Hcommon|].
  intros x Hx. rewrite Hcommon. unfold not_in. rewrite !filter_In. split.
  - rewrite negb_true_iff. tauto.
  - tauto.
Qed.

(** The keys of the specification's example. *)
Example new_and_common_keys_ABCD :
  let current_keys := [VStr "A"; VStr "B"; VStr "C"] in
  let previous_keys := [VStr "B"; VStr "C"; VStr "D"] in
  not_in current_keys previous_keys = [VStr "A"] /\
  not_in current_keys (not_in current_keys previous_keys)
  = [VStr "B"; VStr "C"].
Proof. split; reflexivity. Qed.

(** ** The splitter *)

Lemma getitem_nth (e : list value) (j : nat) :
  (j < List.length e)%nat -> getitem e j = Ok (nth j e VNone).
Proof.
  intros H. unfold getitem.
  now rewrite (nth_error_nth' e VNone H).
Qed.

Lemma bucket_cell (j : nat) (e : list value) (t : Z) :
  bucket j e = Some t -> getitem e j = Ok (VTime t).
Proof.
  unfold bucket, getitem. destruct (nth_error e j) as [[]|]; congruence.
Qed.

Lemma in_bucket_bucket (j : nat) (e : list value) (t : Z) :
  in_bucket j t e = true <-> bucket j e = Some t.
Proof.
  unfold in_bucket. destruct (bucket j e) as [t'|].
  - rewrite Z.eqb_eq. split; congruence.
  - split; discriminate.
Qed.

Lemma seen_into_step (acc : list value) (n : value) (l : list value) :
  seen_into (if negb (py_in n acc) then acc ++ [n] else acc) l
  = seen_into acc (n :: l).
Proof. simpl. now destruct (py_in n acc). Qed.

Section Scan.
Variables jt jn : nat.

(** The scan once two buckets are known: rows of the second bucket are
    kept, and the first row of another bucket ends the scan whatever
    follows it. *)
Lemma for_rows_previous (T T1 : Z) (B tail : Np.table) :
  forall st,
    hh_vals st = [VTime T; VTime T1] ->
    Forall (fun e => in_bucket jt T1 e = true /\ (jn < List.length e)%nat) B ->
    (tail = [] \/
     exists e T0 rest, tail = e :: rest /\ bucket jt e = Some T0 /\
                       T0 <> T /\ T0 <> T1) ->
    for_rows jt jn (B ++ tail) st
    = Ok (Locals (table_hh1 st) (table_hh2 st ++ B) (hh_vals st)
            (names_hh1 st) (seen_into (names_hh2 st) (names_of jn B))).
Proof.
  induction B as [|e B IH]; intros st Hhh HB Htail.
  - simpl. rewrite app_nil_r.
    destruct Htail as [-> | (e & T0 & rest & -> & Hb & H0 & H1)].
    + now destruct st.
    + simpl. rewrite (bucket_cell _ _ Hb). simpl. rewrite Hhh. simpl.
      apply Z.eqb_neq in H0, H1. rewrite Z.eqb_sym in H0, H1.
      rewrite H0, H1. simpl.
      destruct st; simpl in *; congruence.
  - inversion HB as [|? ? [Hin Hread] HB']; subst.
    apply in_bucket_bucket in Hin.
    simpl. rewrite (bucket_cell _ _ Hin). simpl. rewrite Hhh. simpl.
    rewrite Z.eqb_refl, orb_true_r. simpl.
    rewrite (getitem_nth _ Hread). simpl.
    rewrite IH; [|reflexivity | exact HB' | exact Htail]. simpl.
    rewrite seen_into_step, <- app_assoc. reflexivity.
Qed.

(** The scan while one bucket is known, on rows of that bucket only. *)
Lemma for_rows_current (T : Z) (A : Np.table) :
  forall st,
    hh_vals st = [VTime T] ->
    Forall (fun e => in_bucket jt T e = true /\ (jn < List.length e)%nat) A ->
    for_rows jt jn A st
    = Ok (Locals (table_hh1 st ++ A) (table_hh2 st) (hh_vals st)
            (seen_into (names_hh1 st) (names_of jn A)) (names_hh2 st)).
Proof.
  induction A as [|e A IH]; intros st Hhh HA.
  - simpl. rewrite app_nil_r. now destruct st.
  - inversion HA as [|? ? [Hin Hread] HA']; subst.
    apply in_bucket_bucket in Hin.
    simpl. rewrite (bucket_cell _ _ Hin). simpl. rewrite Hhh. simpl.
    rewrite Z.eqb_refl. simpl.
    rewrite (getitem_nth _ Hread). simpl.
    rewrite IH; [|reflexivity | exact HA']. simpl.
    rewrite seen_into_step, <- app_assoc. reflexivity.
Qed.

(** The scan while one bucket is known, up to the end of the second
    bucket. *)
Lemma for_rows_current_previous (T T1 : Z) (A B tail : Np.table)
  (e1 : list value) :
  forall st,
    hh_vals st = [VTime T] ->
    Forall (fun e => in_bucket jt T e = true /\ (jn < List.length e)%nat) A ->
    bucket jt e1 = Some T1 -> T1 <> T -> (jn < List.length e1)%nat ->
    Forall (fun e => in_bucket jt T1 e = true /\ (jn < List.length e)%nat) B ->
    (tail = [] \/
     exists e T0 rest, tail = e :: rest /\ bucket jt e = Some T0 /\
                       T0 <> T /\ T0 <> T1) ->
    for_rows jt jn (A ++ e1 :: B ++ tail) st
    = Ok (Locals (table_hh1 st ++ A) (table_hh2 st ++ e1 :: B)
            [VTime T; VTime T1]
            (seen_into (names_hh1 st) (names_of jn A))
            (seen_into (names_hh2 st) (names_of jn (e1 :: B)))).
Proof.
  induction A as [|e A IH]; intros st Hhh HA Hb1 Hne Hread1 HB Htail.
  - simpl. rewrite (bucket_cell _ _ Hb1). simpl. rewrite Hhh. simpl.
    apply Z.eqb_neq in Hne. rewrite Z.eqb_sym in Hne. rewrite Hne. simpl.
    rewrite (getitem_nth _ Hread1). simpl.
    rewrite (for_rows_previous (T := T) (T1 := T1));
      [|reflexivity | exact HB | exact Htail].
    simpl. rewrite app_nil_r, <- app_assoc.
    now destruct (py_in (nth jn e1 VNone) (names_hh2 st)).
  - inversion HA as [|? ? [Hin Hread] HA']; subst.
    apply in_bucket_bucket in Hin.
    simpl. rewrite (bucket_cell _ _ Hin). simpl. rewrite Hhh. simpl.
    rewrite Z.eqb_refl. simpl.
    rewrite (getitem_nth _ Hread). simpl.
    rewrite IH; try assumption; [|reflexivity]. simpl.
    rewrite <- app_assoc.
    now destruct (py_in (nth jn e VNone) (names_hh1 st)).
Qed.

(** The first row opens the current period. *)
Lemma for_rows_first (T : Z) (e : list value) (rest : Np.table) :
  bucket jt e = Some T -> (jn < List.length e)%nat ->
  for_rows jt jn (e :: rest) no_rows
  = for_rows jt jn rest (Locals [e] [] [VTime T] [nth jn e VNone] []).
Proof.
  intros Hb Hread. simpl.
  rewrite (bucket_cell _ _ Hb). simpl.
  rewrite (getitem_nth _ Hread). reflexivity.
Qed.
End Scan.

(** *** Tables in descending order *)

Section Descending.
Variable j : nat.

Lemma filter_all {A : Type} (p : A -> bool) (l : list A) :
  Forall (fun x => p x = true) l -> filter p l = l.
Proof.
  induction 1 as [|x l Hx _ IH]; simpl; [reflexivity|].
  now rewrite Hx, IH.
Qed.

Lemma filter_none {A : Type} (p : A -> bool) (l : list A) :
  Forall (fun x => p x = false) l -> filter p l = [].
Proof.
  induction 1 as [|x l Hx _ IH]; simpl; [reflexivity|].
  now rewrite Hx.
Qed.

Lemma find_all_false {A : Type} (p : A -> bool) (l m : list A) :
  Forall (fun x => p x = false) l -> find p (l ++ m) = find p m.
Proof.
  induction 1 as [|x l Hx _ IH]; simpl; [reflexivity|].
  now rewrite Hx.
Qed.

Lemma in_bucket_other (T T' : Z) (e : list value) :
  bucket j e = Some T' -> T' <> T -> in_bucket j T e = false.
Proof.
  intros Hb Hne. unfold in_bucket. rewrite Hb. now apply Z.eqb_neq.
Qed.

(** A descending table bounded by [T] is the rows of bucket [T] followed
    by rows of earlier buckets. *)
Lemma descending_groups (T : Z) (l : Np.table) :
  descending j l = true ->
  forallb (not_after j T) l = true ->
  exists A R,
    l = A ++ R /\
    Forall (fun e => in_bucket j T e = true) A /\
    Forall (fun e => exists t, bucket j e = Some t /\ (t < T)%Z) R /\
    descending j R = true.
Proof.
  induction l as [|e l IH]; intros Hd Hle.
  - exists [], []. repeat split; constructor.
  - simpl in Hd, Hle. apply andb_true_iff in Hle as [Hle_e Hle_l].
    unfold not_after in Hle_e.
    destruct (bucket j e) as [t|] eqn:Hb; [|discriminate].
    apply andb_true_iff in Hd as [Hall Hd].
    apply Z.leb_le in Hle_e.
    destruct (Z.eq_dec t T) as [->|Hne].
    + destruct (IH Hd Hle_l) as (A & R & -> & HA & HR & HdR).
      exists (e :: A), R. repeat split; try assumption.
      constructor; [|exact HA]. now apply in_bucket_bucket.
    + exists [], (e :: l). repeat split.
      * constructor.
      * constructor; [exists t; split; [exact Hb | lia]|].
        rewrite forallb_forall in Hall. apply Forall_forall.
        intros e' He'. specialize (Hall e' He'). unfold not_after in Hall.
        destruct (bucket j e') as [t'|]; [|discriminate].
        apply Z.leb_le in Hall. exists t'. split; [reflexivity | lia].
      * simpl. rewrite Hb. now rewrite Hall, Hd.
Qed.

Lemma earlier_not_in_bucket (T : Z) (R : Np.table) :
  Forall (fun e => exists t, bucket j e = Some t /\ (t < T)%Z) R ->
  Forall (fun e => in_bucket j T e = false) R.
Proof.
  apply Forall_impl. intros e (t & Hb & Hlt).
  apply (in_bucket_other _ Hb). lia.
Qed.

(** The two shapes of a descending table: one bucket, or the rows of the
    first bucket, the rows of the second one, and earlier rows. *)
Lemma descending_shape (e0 : list value) (rest : Np.table) :
  descending j (e0 :: rest) = true ->
  exists T A,
    bucket j e0 = Some T /\
    Forall (fun e => in_bucket j T e = true) A /\
    rows_of j (first_bucket j (e0 :: rest)) (e0 :: rest) = e0 :: A /\
    ((rest = A /\ second_bucket j (e0 :: rest) = None) \/
     (exists e1 T1 B R2,
         rest = A ++ e1 :: B ++ R2 /\
         bucket j e1 = Some T1 /\ (T1 < T)%Z /\
         Forall (fun e => in_bucket j T1 e = true) B /\
         Forall (fun e => exists t, bucket j e = Some t /\ (t < T1)%Z) R2 /\
         second_bucket j (e0 :: rest) = Some T1 /\
         rows_of j (Some T1) (e0 :: rest) = e1 :: B)).
Proof.
  intros Hd. simpl in Hd.
  destruct (bucket j e0) as [T|] eqn:Hb0; [|discriminate].
  apply andb_true_iff in Hd as [Hle Hd].
  destruct (descending_groups T rest Hd Hle) as (A & R & -> & HA & HR & HdR).
  exists T, A.
  assert (H0 : in_bucket j T e0 = true) by now apply in_bucket_bucket.
  pose proof (earlier_not_in_bucket HR) as HRn.
  assert (Hcur : rows_of j (first_bucket j (e0 :: A ++ R)) (e0 :: A ++ R)
                 = e0 :: A).
  { simpl. rewrite Hb0. simpl. rewrite H0, filter_app.
    now rewrite (filter_all _ HA), (filter_none _ HRn), app_nil_r. }
  split; [reflexivity|]. split; [exact HA|]. split; [exact Hcur|].
  assert (Hfind : find (fun e => negb (in_bucket j T e)) (e0 :: A ++ R)
                  = find (fun e => negb (in_bucket j T e)) R).
  { simpl. rewrite H0. simpl. apply find_all_false.
    revert HA. apply Forall_impl. intros e He. now rewrite He. }
  destruct R as [|e1 R].
  - left. rewrite app_nil_r. split; [reflexivity|].
    unfold second_bucket. simpl first_bucket. rewrite Hb0.
    rewrite app_nil_r in Hfind. now rewrite Hfind.
  - right.
    inversion HR as [|? ? (T1 & Hb1 & Hlt) HR']; subst.
    simpl in HdR. rewrite Hb1 in HdR.
    apply andb_true_iff in HdR as [Hle1 HdR].
    destruct (descending_groups T1 R HdR Hle1)
      as (B & R2 & -> & HB & HR2 & _).
    exists e1, T1, B, R2.
    assert (Hsecond : second_bucket j (e0 :: A ++ e1 :: B ++ R2) = Some T1).
    { unfold second_bucket. simpl first_bucket. rewrite Hb0, Hfind.
      simpl. rewrite (in_bucket_other _ Hb1) by lia. exact Hb1. }
    repeat split; try assumption.
    simpl. rewrite (in_bucket_other _ Hb0) by lia.
    rewrite filter_app. simpl.
    assert (H1 : in_bucket j T1 e1 = true) by now apply in_bucket_bucket.
    rewrite H1, filter_app.
    rewrite (filter_all _ HB), (filter_none _ (earlier_not_in_bucket HR2)).
    rewrite app_nil_r.
    rewrite filter_none; [reflexivity|].
    revert HA. apply Forall_impl. intros e He.
    apply in_bucket_bucket in He. apply (in_bucket_other _ He). lia.
Qed.
End Descending.

(** *** The scan from its first row *)

Section Split.
Variables jt jn : nat.

Lemma scan_one_bucket (T : Z) (e0 : list value) (A : Np.table) :
  bucket jt e0 = Some T -> (jn < List.length e0)%nat ->
  Forall (fun e => in_bucket jt T e = true /\ (jn < List.length e)%nat) A ->
  for_rows jt jn (e0 :: A) no_rows
  = Ok (Locals (e0 :: A) [] [VTime T]
          (first_seen (names_of jn (e0 :: A))) []).
Proof.
  intros Hb Hread HA.
  rewrite for_rows_first with (T := T) by assumption.
  rewrite for_rows_current with (T := T); [reflexivity | reflexivity | exact HA].
Qed.

Lemma scan_two_buckets (T T1 : Z) (e0 e1 : list value) (A B tail : Np.table) :
  bucket jt e0 = Some T -> (jn < List.length e0)%nat ->
  Forall (fun e => in_bucket jt T e = true /\ (jn < List.length e)%nat) A ->
  bucket jt e1 = Some T1 -> T1 <> T -> (jn < List.length e1)%nat ->
  Forall (fun e => in_bucket jt T1 e = true /\ (jn < List.length e)%nat) B ->
  (tail = [] \/
   exists e T0 rest, tail = e :: rest /\ bucket jt e = Some T0 /\
                     T0 <> T /\ T0 <> T1) ->
  for_rows jt jn (e0 :: A ++ e1 :: B ++ tail) no_rows
  = Ok (Locals (e0 :: A) (e1 :: B) [VTime T; VTime T1]
          (first_seen (names_of jn (e0 :: A)))
          (first_seen (names_of jn (e1 :: B)))).
Proof.
  intros Hb Hread HA Hb1 Hne Hread1 HB Htail.
  rewrite for_rows_first with (T := T) by assumption.
  rewrite for_rows_current_previous with (T := T) (T1 := T1);
    try assumption; reflexivity.
Qed.

Lemma index_lt (l : list string) (x : string) (i : nat) :
  index l x = Ok i -> (i < List.length l)%nat.
Proof.
  revert i. induction l as [|y l IH]; intros i; simpl; [discriminate|].
  destruct (String.eqb y x).
  - intros [= <-]. lia.
  - destruct (index l x) as [i'|]; simpl; [|discriminate].
    intros [= <-]. specialize (IH i' eq_refl). lia.
Qed.

Lemma split_unique {X : Type} (p : X -> bool) (l1 l2 r1 r2 : list X) :
  l1 ++ r1 = l2 ++ r2 ->
  Forall (fun x => p x = true) l1 -> Forall (fun x => p x = true) l2 ->
  Forall (fun x => p x = false) r1 ->
  (exists x r, r2 = x :: r /\ p x = false) ->
  l1 = l2 /\ r1 = r2.
Proof.
  revert l2. induction l1 as [|x l1 IH]; intros [|y l2] E H1 H2 Hr1 Hr2.
  - now split.
  - simpl in E. subst r1. inversion Hr1; subst. inversion H2; subst.
    congruence.
  - destruct Hr2 as (x' & r & -> & Hx'). simpl in E. injection E as <- _.
    inversion H1; subst. congruence.
  - simpl in E. injection E as <- E.
    inversion H1; subst. inversion H2; subst.
    destruct (IH l2 E) as [-> ->]; try assumption. now split.
Qed.
End Split.

Section GetTwoValues.
Variables time_index name_index : string.
Variables (r0 : row) (jt jn : nat).
Hypothesis Hjt : index (keys r0) time_index = Ok jt.
Hypothesis Hjn : index (keys r0) name_index = Ok jn.

Lemma get_two_values_one_bucket (others : list row) (T : Z) (A : Np.table) :
  map values others = A ->
  bucket jt (values r0) = Some T ->
  Forall (fun e => (jn < List.length e)%nat) (values r0 :: A) ->
  Forall (fun e => in_bucket jt T e = true) A ->
  __get_two_values (r0 :: others) time_index name_index
  = Ok (values r0 :: A, [], keys r0,
        first_seen (names_of jn (values r0 :: A)), []).
Proof.
  intros HA Hb Hread Hin. unfold __get_two_values.
  change (getitem (r0 :: others) 0) with (Ok r0).
  cbn [Py.bind]. rewrite Hjn. cbn [Py.bind]. rewrite Hjt. cbn [Py.bind].
  inversion Hread as [|? ? Hread0 HreadA]; subst.
  cbn [map]. rewrite scan_one_bucket with (T := T); try assumption.
  - reflexivity.
  - now apply Forall_and.
Qed.

Lemma get_two_values_two_buckets (others : list row) (T T1 : Z)
  (e1 : list value) (A B tail : Np.table) :
  map values others = A ++ e1 :: B ++ tail ->
  bucket jt (values r0) = Some T ->
  Forall (fun e => (jn < List.length e)%nat) (values r0 :: A ++ e1 :: B) ->
  Forall (fun e => in_bucket jt T e = true) A ->
  bucket jt e1 = Some T1 -> T1 <> T ->
  Forall (fun e => in_bucket jt T1 e = true) B ->
  (tail = [] \/
   exists e T0 rest, tail = e :: rest /\ bucket jt e = Some T0 /\
                     T0 <> T /\ T0 <> T1) ->
  __get_two_values (r0 :: others) time_index name_index
  = Ok (values r0 :: A, e1 :: B, keys r0,
        first_seen (names_of jn (values r0 :: A)),
        first_seen (names_of jn (e1 :: B))).
Proof.
  intros Hothers Hb Hread HinA Hb1 Hne HinB Htail.
  unfold __get_two_values.
  change (getitem (r0 :: others) 0) with (Ok r0).
  cbn [Py.bind]. rewrite Hjn. cbn [Py.bind]. rewrite Hjt. cbn [Py.bind].
  inversion Hread as [|? ? Hread0 Hread']; subst.
  apply Forall_app in Hread' as [HreadA Hread1].
  inversion Hread1 as [|? ? Hread1' HreadB]; subst.
  cbn [map]. rewrite Hothers.
  rewrite scan_two_buckets with (T := T) (T1 := T1); try assumption.
  - reflexivity.
  - now apply Forall_and.
  - now apply Forall_and.
Qed.
End GetTwoValues.

Lemma same_columns_readable (r0 : row) (others : list row) (x : string)
  (i : nat) :
  same_columns (r0 :: others) ->
  index (keys r0) x = Ok i ->
  Forall (fun e => (i < List.length e)%nat) (map values (r0 :: others)).
Proof.
  intros Hcols Hi. apply index_lt in Hi.
  unfold same_columns in Hcols. apply Forall_map.
  revert Hcols. apply Forall_impl. intros r Hr.
  unfold values, keys in *. rewrite length_map.
  rewrite <- (length_map fst r), Hr. exact Hi.
Qed.

(** C1: on rows ordered descending by bucket timestamp, the current rows are
    the rows of the first bucket and the previous rows the rows of the second
    bucket; the scan ends at the first row of a third bucket: that row and the
    rows after it are left out, whatever the later rows are. *)
Theorem split_descending (response : list row) (time_index name_index : string)
  (r0 : row) (others : list row) (jt jn : nat) :
  response = r0 :: others ->
  same_columns response ->
  index (keys r0) time_index = Ok jt ->
  index (keys r0) name_index = Ok jn ->
  descending jt (map values response) = true ->
  let table := map values response in
  let current_rows := rows_of jt (first_bucket jt table) table in
  let previous_rows := rows_of jt (second_bucket jt table) table in
  __get_two_values response time_index name_index
  = Ok (current_rows, previous_rows, keys r0,
        first_seen (names_of jn current_rows),
        first_seen (names_of jn previous_rows)) /\
  (forall pre e post T1 T0,
      response = pre ++ e :: post ->
      second_bucket jt table = Some T1 ->
      bucket jt (values e) = Some T0 -> (T0 < T1)%Z ->
      Forall (fun r => exists t, bucket jt (values r) = Some t /\ (T1 <= t)%Z)
        pre ->
      __get_two_values pre time_index name_index
      = __get_two_values response time_index name_index /\
      forall later,
        __get_two_values (pre ++ e :: later) time_index name_index
        = __get_two_values response time_index name_index).
Proof.
  intros -> Hcols Hjt Hjn Hd. cbv zeta.
  pose proof (same_columns_readable _ Hcols Hjn) as Hread.
  cbn [map] in *.
  destruct (descending_shape _ _ _ Hd)
    as (T & A & Hb0 & HA & Hcur & [[HAeq Hsec] | Htwo]).
  - (* one bucket *)
    rewrite Hcur, Hsec. cbn [rows_of]. split.
    + apply get_two_values_one_bucket with (jt := jt) (T := T);
        try assumption.
      now rewrite <- HAeq.
    + intros pre e post T1 T0 _ [=].
  - (* two buckets, then earlier rows *)
    destruct Htwo as (e1 & T1 & B & R2 & Hrest & Hb1 & Hlt & HB & HR2 & Hsec & Hprev).
    rewrite Hcur, Hsec, Hprev.
    assert (Hread' : Forall (fun e => (jn < List.length e)%nat)
                       (values r0 :: A ++ e1 :: B)).
    { rewrite Hrest in Hread.
      inversion Hread as [|? ? H0 H']; subst. constructor; [exact H0|].
      apply Forall_app in H' as [H1 H2]. apply Forall_app. split; [exact H1|].
      inversion H2 as [|? ? H3 H4]; subst. constructor; [exact H3|].
      now apply Forall_app in H4 as [H4 _]. }
    assert (Hmain : forall rs tail,
               map values rs = A ++ e1 :: B ++ tail ->
               (tail = [] \/
                exists e T0 rest, tail = e :: rest /\ bucket jt e = Some T0 /\
                                  T0 <> T /\ T0 <> T1) ->
               __get_two_values (r0 :: rs) time_index name_index
               = Ok (values r0 :: A, e1 :: B, keys r0,
                     first_seen (names_of jn (values r0 :: A)),
                     first_seen (names_of jn (e1 :: B)))).
    { intros rs tail Hrs Htail.
      apply get_two_values_two_buckets
        with (jt := jt) (T := T) (T1 := T1) (tail := tail); try assumption.
      lia. }
    assert (Hresp : __get_two_values (r0 :: others) time_index name_index
                    = Ok (values r0 :: A, e1 :: B, keys r0,
                          first_seen (names_of jn (values r0 :: A)),
                          first_seen (names_of jn (e1 :: B)))).
    { apply (Hmain others R2 Hrest).
      destruct R2 as [|e3 R2]; [now left | right].
      inversion HR2 as [|? ? (t3 & Hb3 & Hlt3) _]; subst.
      exists e3, t3, R2. repeat split; [exact Hb3 | lia | lia]. }
    split; [exact Hresp|].
    intros pre e post T1' T0 Hsplit [= <-] Hbe Hlt0 Hpre.
    rewrite Hresp.
    (* the rows before [e] are the rows of the two buckets *)
    set (p := fun x : list value =>
                match bucket jt x with
                | Some t => (T1 <=? t)%Z
                | None => false
                end).
    assert (Hunique : values r0 :: A ++ e1 :: B = map values pre /\
                      R2 = values e :: map values post).
    { apply (split_unique p).
      - pose proof (f_equal (map values) Hsplit) as Hrows.
        rewrite map_app in Hrows. cbn [map] in Hrows.
        rewrite <- Hrows, Hrest. cbn [app].
        now rewrite <- app_assoc.
      - constructor.
        + unfold p. rewrite Hb0. apply Z.leb_le. lia.
        + apply Forall_app. split.
          * revert HA. apply Forall_impl. intros x Hx.
            apply in_bucket_bucket in Hx. unfold p. rewrite Hx.
            apply Z.leb_le. lia.
          * constructor.
            -- unfold p. rewrite Hb1. apply Z.leb_le. lia.
            -- revert HB. apply Forall_impl. intros x Hx.
               apply in_bucket_bucket in Hx. unfold p. rewrite Hx.
               apply Z.leb_le. lia.
      - apply Forall_map. revert Hpre. apply Forall_impl.
        intros r (t & Hbt & Hle). unfold p. rewrite Hbt. now apply Z.leb_le.
      - revert HR2. apply Forall_impl. intros x (t & Hbt & Hlt').
        unfold p. rewrite Hbt. apply Z.leb_gt. lia.
      - exists (values e), (map values post). split; [reflexivity|].
        unfold p. rewrite Hbe. apply Z.leb_gt. lia. }
    destruct Hunique as [Hpre_rows _].
    destruct pre as [|r0' pre]; [discriminate|].
    injection Hsplit as <- Hothers.
    cbn [map] in Hpre_rows. injection Hpre_rows as Hpre_rows.
    split.
    + apply (Hmain pre []); [|now left].
      now rewrite <- Hpre_rows, app_nil_r.
    + intros later.
      apply (Hmain (pre ++ e :: later) (values e :: map values later)).
      * rewrite map_app, <- Hpre_rows, <- app_assoc. reflexivity.
      * right. exists (values e), T0, (map values later).
        repeat split; [exact Hbe | lia | lia].
Qed.

(** The rows of the specification's example, buckets
    [T2, T2, T1, T1, T0]. *)
Lemma split_descending_witness :
  descending 0 (map values Samples.five_rows) = true /\
  __get_two_values Samples.five_rows "hh" "names"
  = Ok (map values [Samples.error_row Samples.T2 3 "A";
                    Samples.error_row Samples.T2 1 "B"],
        map values [Samples.error_row Samples.T1 2 "C";
                    Samples.error_row Samples.T1 5 "D"],
        errors_columns,
        [VStr "A"; VStr "B"], [VStr "C"; VStr "D"]) /\
  (forall later,
      __get_two_values
        (firstn 4 Samples.five_rows ++ Samples.error_row Samples.T0 7 "E" :: later)
        "hh" "names"
      = __get_two_values Samples.five_rows "hh" "names").
Proof.
  split; [reflexivity|].
  destruct (@split_descending Samples.five_rows "hh" "names"
              (Samples.error_row Samples.T2 3 "A")
              (tl Samples.five_rows) 0 2 eq_refl)
    as [Hsplit Hstop].
  - repeat constructor.
  - reflexivity.
  - reflexivity.
  - reflexivity.
  - split; [exact Hsplit|].
    intros later.
    refine (proj2 (Hstop (firstn 4 Samples.five_rows)
                     (Samples.error_row Samples.T0 7 "E") []
                     Samples.T1 Samples.T0 eq_refl eq_refl eq_refl eq_refl _)
              later).
    repeat constructor;
      (eexists; split; [reflexivity | discriminate]).
Defined.

(** ** Keys in first-seen order *)

Lemma py_in_app (x : value) (l m : list value) :
  py_in x (l ++ m) = py_in x l || py_in x m.
Proof. unfold py_in. apply existsb_app. Qed.

Lemma py_in_false (x : value) (l : list value) :
  py_in x l = false <-> Forall (fun y => py_eq y x = false) l.
Proof.
  unfold py_in. induction l as [|y l IH]; simpl.
  - split; [constructor | reflexivity].
  - rewrite orb_false_iff, IH. split.
    + intros [H1 H2]. now constructor.
    + intros H. inversion H; subst. now split.
Qed.

Lemma py_eq_false_sym (a b : value) : py_eq a b = false -> py_eq b a = false.
Proof.
  intros H. destruct (py_eq b a) eqn:E; [|reflexivity].
  apply py_eq_sym in E. congruence.
Qed.

Lemma distinct_snoc (acc : list value) (n : value) :
  distinct acc -> py_in n acc = false -> distinct (acc ++ [n]).
Proof.
  induction acc as [|x acc IH]; simpl; intros Hd Hn.
  - now split.
  - destruct Hd as [Hx Hd]. apply orb_false_iff in Hn as [Hxn Hn]. split.
    + rewrite py_in_app, Hx. simpl. now rewrite (py_eq_false_sym _ _ Hxn).
    + now apply IH.
Qed.

Lemma seen_into_distinct (l acc : list value) :
  distinct acc -> distinct (seen_into acc l).
Proof.
  revert acc. induction l as [|n l IH]; intros acc Hd; simpl; [exact Hd|].
  apply IH. destruct (py_in n acc) eqn:E; [exact Hd|].
  now apply distinct_snoc.
Qed.

Lemma seen_into_keeps (l acc : list value) (x : value) :
  py_in x acc = true -> py_in x (seen_into acc l) = true.
Proof.
  revert acc. induction l as [|n l IH]; intros acc Hx; simpl; [exact Hx|].
  apply IH. destruct (py_in n acc); [exact Hx|].
  rewrite py_in_app, Hx. reflexivity.
Qed.

Lemma seen_into_covers (l acc : list value) (x : value) :
  In x l -> py_in x (seen_into acc l) = true.
Proof.
  revert acc. induction l as [|n l IH]; intros acc; simpl; [tauto|].
  intros [-> | Hx]; [|now apply IH].
  apply seen_into_keeps. destruct (py_in x acc) eqn:E; [exact E|].
  rewrite py_in_app. simpl. now rewrite py_eq_refl, orb_true_r.
Qed.

Lemma seen_into_app (l m acc : list value) :
  seen_into acc (l ++ m) = seen_into (seen_into acc l) m.
Proof.
  revert acc. induction l as [|n l IH]; intros acc; simpl; [reflexivity|].
  apply IH.
Qed.

Lemma seen_into_nonempty (l acc : list value) :
  acc <> [] -> seen_into acc l <> [].
Proof.
  revert acc. induction l as [|n l IH]; intros acc Hacc; simpl; [exact Hacc|].
  apply IH. destruct (py_in n acc); [exact Hacc|].
  destruct acc; [congruence | discriminate].
Qed.

(** ** What the scan keeps, on any rows *)

Section ScanAny.
Variables jt jn : nat.

Lemma getitem_Ok_nth (e : list value) (j : nat) (v : value) :
  getitem e j = Ok v -> v = nth j e VNone /\ (j < List.length e)%nat.
Proof.
  unfold getitem. destruct (nth_error e j) as [w|] eqn:E; [|discriminate].
  intros [= <-]. split.
  - symmetry. now apply nth_error_nth.
  - apply nth_error_Some. congruence.
Qed.

(** The scan only appends rows of the table to the two periods, and the
    names follow the rows. *)
Lemma for_rows_grows (table : Np.table) :
  forall st st',
    for_rows jt jn table st = Ok st' ->
    exists a b,
      table_hh1 st' = table_hh1 st ++ a /\
      table_hh2 st' = table_hh2 st ++ b /\
      incl a table /\ incl b table /\
      names_hh1 st' = seen_into (names_hh1 st) (names_of jn a) /\
      names_hh2 st' = seen_into (names_hh2 st) (names_of jn b).
Proof.
  induction table as [|e table IH]; intros st st'; simpl.
  - intros [= <-]. exists [], []. rewrite !app_nil_r.
    repeat split; apply incl_refl.
  - destruct (getitem e jt) as [t|] eqn:Et; simpl; [|discriminate].
    destruct (negb (py_in t (hh_vals st))
              && (List.length (hh_vals st) =? 2)%nat).
    { intros [= <-]. exists [], []. rewrite !app_nil_r.
      repeat split; apply incl_nil_l. }
    set (hh := if negb (py_in t (hh_vals st))
               then hh_vals st ++ [t] else hh_vals st).
    destruct (List.length hh =? 1)%nat;
      [|destruct (List.length hh =? 2)%nat].
    + destruct (getitem e jn) as [n|] eqn:En; simpl; [|discriminate].
      apply getitem_Ok_nth in En as [-> _].
      intros H. apply IH in H as (a & b & H1 & H2 & Ha & Hb & Hn1 & Hn2).
      simpl in *. exists (e :: a), b.
      rewrite H1, H2, Hn1, Hn2, <- app_assoc.
      repeat split.
      * now apply incl_cons; [left | apply incl_tl].
      * now apply incl_tl.
      * simpl. now destruct (py_in _ (names_hh1 st)).
    + destruct (getitem e jn) as [n|] eqn:En; simpl; [|discriminate].
      apply getitem_Ok_nth in En as [-> _].
      intros H. apply IH in H as (a & b & H1 & H2 & Ha & Hb & Hn1 & Hn2).
      simpl in *. exists a, (e :: b).
      rewrite H1, H2, Hn1, Hn2, <- app_assoc.
      repeat split.
      * now apply incl_tl.
      * now apply incl_cons; [left | apply incl_tl].
      * simpl. now destruct (py_in _ (names_hh2 st)).
    + intros H. apply IH in H as (a & b & H1 & H2 & Ha & Hb & Hn1 & Hn2).
      simpl in *. exists a, b. repeat split; try assumption;
        now apply incl_tl.
Qed.

(** The scan raises nothing on rows that hold both columns. *)
Lemma for_rows_total (table : Np.table) :
  Forall (fun e => (jt < List.length e)%nat /\ (jn < List.length e)%nat)
    table ->
  forall st, exists st', for_rows jt jn table st = Ok st'.
Proof.
  induction 1 as [|e table [Ht Hn] _ IH]; intros st; simpl.
  - now exists st.
  - rewrite (getitem_nth _ Ht), (getitem_nth _ Hn). simpl.
    destruct (_ && _); [now exists st|].
    destruct (_ =? 1)%nat; [apply IH|].
    destruct (_ =? 2)%nat; apply IH.
Qed.
End ScanAny.

(** On rows that hold both columns the splitter returns: the first row opens
    the current period, and both periods are made of rows of the table. *)
Lemma get_two_values_returns (time_index name_index : string) (r0 : row)
  (others : list row) (jt jn : nat) :
  same_columns (r0 :: others) ->
  index (keys r0) time_index = Ok jt ->
  index (keys r0) name_index = Ok jn ->
  exists a b,
    __get_two_values (r0 :: others) time_index name_index
    = Ok (values r0 :: a, b, keys r0,
          first_seen (names_of jn (values r0 :: a)),
          first_seen (names_of jn b)) /\
    incl a (map values others) /\ incl b (map values others).
Proof.
  intros Hcols Hjt Hjn.
  pose proof (same_columns_readable _ Hcols Hjt) as Hrt.
  pose proof (same_columns_readable _ Hcols Hjn) as Hrn.
  cbn [map] in Hrt, Hrn.
  inversion Hrt as [|? ? Ht0 Hrt']; subst.
  inversion Hrn as [|? ? Hn0 Hrn']; subst.
  unfold __get_two_values.
  change (getitem (r0 :: others) 0) with (Ok r0).
  cbn [Py.bind]. rewrite Hjn. cbn [Py.bind]. rewrite Hjt. cbn [Py.bind].
  cbn [map for_rows].
  rewrite (getitem_nth _ Ht0), (getitem_nth _ Hn0). cbn.
  assert (Hboth : Forall (fun e => (jt < List.length e)%nat /\
                                   (jn < List.length e)%nat)
                     (map values others)).
  { clear - Hrt' Hrn'. induction Hrt'; inversion Hrn'; subst;
      constructor; auto. }
  destruct (for_rows_total Hboth
              (Locals [values r0] [] [nth jt (values r0) VNone]
                 [nth jn (values r0) VNone] []))
    as [st' Hst'].
  rewrite Hst'. cbn [Py.bind].
  apply for_rows_grows in Hst' as (a & b & H1 & H2 & Ha & Hb & Hn1 & Hn2).
  simpl in H1, H2, Hn1, Hn2.
  exists a, b. rewrite H1, H2, Hn1, Hn2. repeat split; assumption.
Qed.

(** A key common to both periods comes with previous rows, so the tables
    the module reads by column hold a row. *)
Lemma common_key_previous_rows (time_index name_index : string) (r0 : row)
  (others : list row) (jt jn : nat) (t1 t2 : Np.table) (cols : list string)
  (this last : list value) :
  same_columns (r0 :: others) ->
  index (keys r0) time_index = Ok jt ->
  index (keys r0) name_index = Ok jn ->
  __get_two_values (r0 :: others) time_index name_index
  = Ok (t1, t2, cols, this, last) ->
  not_in this (not_in this last) <> [] ->
  t1 <> [] /\ t2 <> [].
Proof.
  intros Hcols Hjt Hjn Hsplit Hcommon.
  destruct (get_two_values_returns _ _ Hcols Hjt Hjn)
    as (a & b & Hgtv & _ & _).
  rewrite Hsplit in Hgtv. injection Hgtv as -> -> -> -> ->.
  split; [discriminate|].
  intros ->. apply Hcommon.
  change (first_seen (names_of jn [])) with (@nil value).
  unfold not_in at 2. rewrite filter_all; [|now apply Forall_forall].
  unfold not_in. apply filter_none, Forall_forall. intros x Hx.
  apply negb_false_iff, py_in_true. exists x. split; [exact Hx|].
  apply py_eq_refl.
Qed.

(** ** Rows of the errors request *)

Lemma errors_row_spec (r : row) :
  errors_row r = true ->
  keys r = errors_columns /\ errors_cells (values r) = true.
Proof.
  destruct r as [|[c0 v0] [|[c1 v1] [|[c2 v2] [|[c3 v3] [|]]]]];
    simpl; try discriminate;
    destruct v0; try discriminate; destruct v1; try discriminate;
    destruct v3; try discriminate.
  intros H. repeat (apply andb_true_iff in H as [H ?]).
  py_eq_props. subst. split; [reflexivity | assumption].
Qed.

Lemma errors_cells_inv (e : list value) :
  errors_cells e = true ->
  exists t s n l, e = [VTime t; VInt s; n; VList l] /\
                  (n = VNone \/ exists x, n = VStr x).
Proof.
  destruct e as [|v0 [|v1 [|v2 [|v3 [|]]]]]; simpl; try discriminate;
    destruct v0; try discriminate; destruct v1; try discriminate;
    destruct v3; try discriminate.
  intros H. do 4 eexists. split; [reflexivity|].
  destruct v2; try discriminate; [now left | right; eauto].
Qed.

Lemma errors_rows_cells (res : list row) :
  forallb errors_row res = true ->
  Forall (fun r => keys r = errors_columns) res /\
  Forall (fun e => errors_cells e = true) (map values res).
Proof.
  rewrite forallb_forall. intros H. split.
  - apply Forall_forall. intros r Hr. now apply errors_row_spec, H.
  - apply Forall_map, Forall_forall. intros r Hr.
    now apply errors_row_spec, H.
Qed.

Lemma column_sessions (t : Np.table) :
  Forall (fun e => errors_cells e = true) t ->
  Np.column t 1 = Ok (map (fun e => VInt (sessions_of e)) t).
Proof.
  unfold Np.column. induction 1 as [|e l He _ IH]; [reflexivity|].
  apply errors_cells_inv in He as (t0 & s & n & l0 & -> & _).
  cbn. rewrite IH. reflexivity.
Qed.

Lemma column_names (t : Np.table) :
  Forall (fun e => errors_cells e = true) t ->
  Np.column t 2 = Ok (names_of 2 t).
Proof.
  unfold Np.column. induction 1 as [|e l He _ IH]; [reflexivity|].
  apply errors_cells_inv in He as (t0 & s & n & l0 & -> & _).
  cbn. rewrite IH. reflexivity.
Qed.

Lemma where_eq_names (t : Np.table) (k : value) :
  Forall (fun e => errors_cells e = true) t ->
  Np.where_eq t 2 k = Ok (filter (fun e => py_eq (nth 2 e VNone) k) t).
Proof.
  intros Hcells.
  unfold Np.where_eq. rewrite (column_names Hcells). cbn [Py.bind]. f_equal.
  unfold names_of. clear Hcells.
  induction t as [|e l IH]; [reflexivity|].
  cbn [map combine filter fst]. destruct (py_eq (nth 2 e VNone) k).
  - cbn [map snd]. now rewrite IH.
  - exact IH.
Qed.

Lemma reduce_add_ints (zs : list Z) (a : Z) :
  Np.reduce_add (VInt a) (map VInt zs)
  = Ok (VInt (a + fold_right Z.add 0%Z zs)).
Proof.
  revert a. induction zs as [|z zs IH]; intros a; simpl.
  - now rewrite Z.add_0_r.
  - rewrite IH. now rewrite Z.add_assoc.
Qed.

Lemma sum_ints (zs : list Z) :
  Np.sum (map VInt zs) = Ok (VInt (fold_right Z.add 0%Z zs)).
Proof.
  destruct zs as [|z zs]; [reflexivity|].
  simpl. now rewrite reduce_add_ints.
Qed.

Lemma sessions_total_fold (t : Np.table) :
  sessions_total t = fold_right Z.add 0%Z (map sessions_of t).
Proof. induction t as [|e t IH]; simpl; [reflexivity | now rewrite <- IH]. Qed.

Lemma sum_sessions (t : Np.table) :
  Forall (fun e => errors_cells e = true) t ->
  Py.bind (Np.column t 1) Np.sum = Ok (VInt (sessions_total t)).
Proof.
  intros H. rewrite (column_sessions H). cbn [Py.bind].
  rewrite <- (map_map sessions_of VInt), sum_ints.
  now rewrite sessions_total_fold.
Qed.

Lemma sum_sessions_column (t : Np.table) :
  Np.sum (map (fun e => VInt (sessions_of e)) t) = Ok (VInt (sessions_total t)).
Proof.
  rewrite <- (map_map sessions_of VInt), sum_ints.
  now rewrite sessions_total_fold.
Qed.

Lemma Forall_filter_keep {A : Type} (P : A -> Prop) (p : A -> bool)
  (l : list A) :
  Forall P l -> Forall P (filter p l).
Proof.
  intros H. apply Forall_forall. intros x Hx.
  apply filter_In in Hx as [Hx _]. rewrite Forall_forall in H. now apply H.
Qed.

Lemma truediv_ints (s total : Z) :
  py_truediv (VInt s) (VInt total)
  = if Z.eqb total 0 then Raise ZeroDivisionError
    else Ok (VFloat (inject_Z s / inject_Z total)).
Proof.
  unfold py_truediv. simpl.
  destruct (Qeq_bool (inject_Z total) 0) eqn:E; destruct (Z.eqb_spec total 0);
    try reflexivity.
  - apply Qeq_bool_iff in E. unfold Qeq in E. simpl in E. lia.
  - subst. discriminate.
Qed.

Lemma dict_set_fresh (d : list (value * value)) (k v : value) :
  Forall (fun p => py_eq (fst p) k = false) d ->
  dict_set d k v = d ++ [(k, v)].
Proof.
  induction 1 as [|[k' v'] d Hk _ IH]; simpl; [reflexivity|].
  simpl in Hk. now rewrite Hk, IH.
Qed.

(** The loop of line 118: one share per current key. *)
Lemma share_loop (t1 : Np.table) (total : Z) :
  Forall (fun e => errors_cells e = true) t1 ->
  total <> 0%Z ->
  forall ks d,
    distinct ks ->
    Forall (fun k => Forall (fun p => py_eq (fst p) k = false) d) ks ->
    for_each ks
      (fun percentage_errors n =>
         Py.bind (Np.where_eq t1 2 n) (fun rows =>
         Py.bind (Np.column rows 1) (fun c =>
         Py.bind (Np.sum c) (fun s =>
         Py.bind (py_truediv s (VInt total)) (fun share =>
         Ok (dict_set percentage_errors n share))))))
      d
    = Ok (d ++ map (fun k => (k, VFloat (inject_Z (sessions_for k t1)
                                           / inject_Z total))) ks).
Proof.
  intros Hcells Htotal.
  induction ks as [|k ks IH]; intros d Hd Hfresh; simpl.
  - now rewrite app_nil_r.
  - destruct Hd as [Hk Hd]. inversion Hfresh as [|? ? Hfk Hfresh']; subst.
    rewrite (where_eq_names _ Hcells). cbn [Py.bind].
    rewrite column_sessions by now apply Forall_filter_keep.
    cbn [Py.bind]. rewrite sum_sessions_column. cbn [Py.bind].
    rewrite truediv_ints. apply Z.eqb_neq in Htotal. rewrite Htotal.
    cbn [Py.bind]. rewrite dict_set_fresh by exact Hfk.
    rewrite IH; [now rewrite <- app_assoc | exact Hd |].
    apply py_in_false in Hk.
    rewrite Forall_forall in Hk, Hfresh'.
    apply Forall_forall. intros k0 Hk0. apply Forall_app. split.
    + now apply Hfresh'.
    + constructor; [|constructor]. simpl. now apply py_eq_false_sym, Hk.
Qed.

(** The same loop when no session was counted: the first share divides by
    zero. *)
Lemma share_loop_zero (t1 : Np.table) (k : value) (ks : list value)
  (d : list (value * value)) :
  Forall (fun e => errors_cells e = true) t1 ->
  for_each (k :: ks)
    (fun percentage_errors n =>
       Py.bind (Np.where_eq t1 2 n) (fun rows =>
       Py.bind (Np.column rows 1) (fun c =>
       Py.bind (Np.sum c) (fun s =>
       Py.bind (py_truediv s (VInt 0)) (fun share =>
       Ok (dict_set percentage_errors n share))))))
    d
  = Raise ZeroDivisionError.
Proof.
  intros Hcells. simpl.
  rewrite (where_eq_names _ Hcells). cbn [Py.bind].
  rewrite column_sessions by now apply Forall_filter_keep.
  cbn [Py.bind]. rewrite sum_sessions_column. cbn [Py.bind].
  rewrite truediv_ints. reflexivity.
Qed.

(** ** Sorting shares *)

Lemma py_lt_floats (a b : value * value) :
  is_float a -> is_float b ->
  py_lt (snd a) (snd b) = Ok (negb (Qle_bool (share_of b) (share_of a))).
Proof.
  intros [qa Ha] [qb Hb]. unfold share_of. rewrite Ha, Hb. reflexivity.
Qed.

Lemma insert_floats (x : value * value) (l : list (value * value)) :
  is_float x -> Forall is_float l -> StronglySorted by_share l ->
  exists r, Py.insert (@snd value value) x l = Ok r /\
            Permutation (x :: l) r /\ StronglySorted by_share r.
Proof.
  intros Hx Hl Hs. induction l as [|y l IH]; simpl.
  - exists [x]. repeat split; [apply Permutation_refl|].
    constructor; constructor.
  - inversion Hl as [|? ? Hy Hl']; subst.
    inversion Hs as [|? ? Hs' Hyl]; subst.
    rewrite (py_lt_floats Hy Hx). cbn [Py.bind].
    destruct (Qle_bool (share_of x) (share_of y)) eqn:E; cbn [negb].
    + apply Qle_bool_iff in E.
      exists (x :: y :: l). repeat split; [apply Permutation_refl|].
      constructor; [exact Hs|].
      constructor; [exact E|].
      revert Hyl. apply Forall_impl. intros z Hz. unfold by_share in *.
      eapply Qle_trans; eassumption.
    + destruct (IH Hl' Hs') as (r & -> & Hperm & Hr). cbn [Py.bind].
      exists (y :: r). repeat split.
      * eapply perm_trans; [apply perm_swap | now apply perm_skip].
      * constructor; [exact Hr|].
        apply (Permutation_Forall Hperm). constructor; [|exact Hyl].
        unfold by_share. apply Qlt_le_weak, Qnot_le_lt.
        intros Hle. apply Qle_bool_iff in Hle. congruence.
Qed.

Lemma sort_floats (l : list (value * value)) :
  Forall is_float l ->
  exists s, Py.sort (@snd value value) l = Ok s /\
            Permutation l s /\ StronglySorted by_share s.
Proof.
  induction 1 as [|x l Hx Hl IH]; simpl.
  - exists []. repeat split; constructor.
  - destruct IH as (s & -> & Hperm & Hs). cbn [Py.bind].
    destruct (@insert_floats x s Hx) as (r & Hr & Hperm' & Hsorted);
      [now apply (Permutation_Forall Hperm) | exact Hs |].
    exists r. repeat split; [exact Hr | | exact Hsorted].
    eapply perm_trans; [apply perm_skip, Hperm | exact Hperm'].
Qed.

Lemma StronglySorted_snoc {A : Type} (R : A -> A -> Prop) (l : list A) (x : A) :
  StronglySorted R l -> Forall (fun y => R y x) l ->
  StronglySorted R (l ++ [x]).
Proof.
  induction 1 as [|y l Hs IH Hy]; intros Hx; simpl.
  - constructor; constructor.
  - inversion Hx; subst. constructor; [now apply IH|].
    apply Forall_app. split; [exact Hy | now constructor].
Qed.

Lemma StronglySorted_rev {A : Type} (R : A -> A -> Prop) (l : list A) :
  StronglySorted R l -> StronglySorted (fun a b => R b a) (rev l).
Proof.
  induction 1 as [|x l Hs IH Hx]; simpl; [constructor|].
  apply StronglySorted_snoc; [exact IH|].
  now apply Forall_rev.
Qed.

(** [sorted(d.items(), key=lambda k: k[1], reverse=True)] on shares. *)
Lemma sorted_reverse_floats (l : list (value * value)) :
  Forall is_float l ->
  exists s, Py.sorted (@snd value value) true l = Ok s /\
            Permutation l s /\
            StronglySorted (fun a b => by_share b a) s.
Proof.
  intros Hl. unfold Py.sorted.
  destruct (@sort_floats (rev l)) as (s & -> & Hperm & Hs);
    [now apply Forall_rev|].
  cbn [Py.bind]. exists (rev s). repeat split.
  - eapply perm_trans; [apply Permutation_rev|].
    eapply perm_trans; [exact Hperm | apply Permutation_rev].
  - now apply StronglySorted_rev.
Qed.

(** ** The shares of the current keys add up to the total *)




Lemma sessions_for_cons (k : value) (e : list value) (t : Np.table) :
  sessions_for k (e :: t)
  = ((if py_eq (nth 2 e VNone) k then sessions_of e else 0) + sessions_for k t)%Z.
Proof.
  unfold sessions_for. simpl. now destruct (py_eq (nth 2 e VNone) k).
Qed.




(** ** The errors category *)

Lemma errors_split (res : list row) :
  res <> [] ->
  forallb errors_row res = true ->
  exists t1 t2,
    __get_two_values res "hh" "names"
    = Ok (t1, t2, errors_columns,
          first_seen (names_of 2 t1), first_seen (names_of 2 t2)) /\
    t1 <> [] /\
    Forall (fun e => errors_cells e = true) t1 /\
    Forall (fun e => errors_cells e = true) t2.
Proof.
  intros Hne Hrows. destruct res as [|r0 others]; [congruence|].
  destruct (errors_rows_cells _ Hrows) as [Hkeys Hcells].
  assert (Hk0 : keys r0 = errors_columns) by now inversion Hkeys.
  destruct (@get_two_values_returns "hh" "names" r0 others 0 2)
    as (a & b & Hgtv & Ha & Hb).
  - unfold same_columns. revert Hkeys. apply Forall_impl. congruence.
  - now rewrite Hk0.
  - now rewrite Hk0.
  - exists (values r0 :: a), b. rewrite Hgtv, Hk0.
    cbn [map] in Hcells. inversion Hcells as [|? ? H0 Hothers]; subst.
    rewrite Forall_forall in Hothers.
    repeat split; try discriminate.
    + constructor; [exact H0|]. apply Forall_forall. auto.
    + apply Forall_forall. auto.
Qed.

Lemma py_add_raises (a b : value) (e : exn) :
  py_add a b = Raise e -> e = TypeError.
Proof. destruct a, b; simpl; congruence. Qed.

Lemma reduce_add_raises (l : list value) (acc : value) (e : exn) :
  Np.reduce_add acc l = Raise e -> e = TypeError.
Proof.
  revert acc. induction l as [|x l IH]; intros acc; simpl; [discriminate|].
  destruct (py_add acc x) as [s|e'] eqn:E; simpl.
  - apply IH.
  - intros [= <-]. now apply py_add_raises in E.
Qed.

Lemma sum_raises (l : list value) (e : exn) :
  Np.sum l = Raise e -> e = TypeError.
Proof.
  destruct l as [|x l]; simpl; [discriminate | apply reduce_add_raises].
Qed.

Lemma reduce_add_names (l : list value) (acc v : value) :
  (acc = VNone \/ exists x, acc = VStr x) ->
  Np.reduce_add acc l = Ok v ->
  v = VNone \/ exists x, v = VStr x.
Proof.
  revert acc. induction l as [|y l IH]; intros acc Hacc; simpl.
  - now intros [= <-].
  - destruct Hacc as [-> | [x ->]]; simpl; [discriminate|].
    destruct y; simpl; try discriminate.
    apply IH. right. eauto.
Qed.

Lemma names_of_cells (t : Np.table) :
  Forall (fun e => errors_cells e = true) t ->
  Forall (fun v => v = VNone \/ exists x, v = VStr x) (names_of 2 t).
Proof.
  intros H. unfold names_of. apply Forall_map. revert H.
  apply Forall_impl. intros e He.
  now apply errors_cells_inv in He as (t0 & s & n & l & -> & Hn).
Qed.

(** The loop of line 120 on a key the current rows hold: the names of the
    rows are added up and subtracted, which no string or None allows. *)
Lemma delta_loop_raises (t1 t2 : Np.table) (k : value) (ks : list value)
  (d : list (value * value)) :
  Forall (fun e => errors_cells e = true) t1 ->
  Forall (fun e => errors_cells e = true) t2 ->
  (exists e, In e t1 /\ nth 2 e VNone = k) ->
  for_each (k :: ks)
    (fun error_increase n =>
       Py.bind (Np.where_eq t1 2 n) (fun rows1 =>
       Py.bind (Np.column rows1 2) (fun c1 =>
       Py.bind (Np.sum c1) (fun s1 =>
       Py.bind (Np.where_eq t2 2 n) (fun rows2 =>
       Py.bind (Np.column rows2 2) (fun c2 =>
       Py.bind (Np.sum c2) (fun s2 =>
       Py.bind (py_sub s1 s2) (fun delta =>
       Ok (dict_set error_increase n delta)))))))))
    d
  = Raise TypeError.
Proof.
  intros Hc1 Hc2 (e & He & Hk). cbn [for_each].
  rewrite (where_eq_names _ Hc1). cbn [Py.bind].
  set (rows1 := filter (fun e0 => py_eq (nth 2 e0 VNone) k) t1).
  assert (Hrows1 : Forall (fun e => errors_cells e = true) rows1)
    by now apply Forall_filter_keep.
  assert (Hin : In e rows1).
  { apply filter_In. split; [exact He|]. rewrite Hk. apply py_eq_refl. }
  rewrite (column_names Hrows1). cbn [Py.bind].
  pose proof (names_of_cells Hrows1) as Hnames.
  destruct (names_of 2 rows1) as [|n ns] eqn:En.
  { destruct rows1; [contradiction | discriminate]. }
  destruct (Np.sum (n :: ns)) as [s1|e1] eqn:Es1; cbn [Py.bind].
  2:{ apply sum_raises in Es1. now subst. }
  assert (Hs1 : s1 = VNone \/ exists x, s1 = VStr x).
  { inversion Hnames; subst. simpl in Es1.
    eapply reduce_add_names; eassumption. }
  rewrite (where_eq_names _ Hc2). cbn [Py.bind].
  rewrite column_names by now apply Forall_filter_keep.
  cbn [Py.bind].
  destruct (Np.sum (names_of 2 (filter _ t2))) as [s2|e2] eqn:Es2;
    cbn [Py.bind].
  2:{ apply sum_raises in Es2. now subst. }
  destruct Hs1 as [-> | [x ->]]; destruct s2; reflexivity.
Qed.

Section Errors.
Variable experimental : ClickHouseClient.
Variables (project_id : Z) (start_time end_time : string).
Variable time_step : value.
Variable conn : option ClickHouseClient.
Variables (function : string) (steps : Z) (res : list row).

Hypothesis Hstep : __handle_timestep time_step = Ok (function, steps).
Hypothesis Hres :
  execute (connect experimental conn)
    (make_query ERROR function steps project_id start_time end_time)
  = Ok res.
Hypothesis Hrows : forallb errors_row res = true.

Variables (t1 t2 : Np.table) (cols : list string) (this last : list value).
Hypothesis Hsplit :
  __get_two_values res "hh" "names" = Ok (t1, t2, cols, this, last).

Lemma errors_split_facts :
  cols = errors_columns /\
  this = first_seen (names_of 2 t1) /\
  last = first_seen (names_of 2 t2) /\
  t1 <> [] /\
  Forall (fun e => errors_cells e = true) t1 /\
  Forall (fun e => errors_cells e = true) t2.
Proof.
  destruct (@errors_split res) as (a & b & Hgtv & Hne & Ha & Hb).
  - intros E. rewrite E in Hsplit. discriminate Hsplit.
  - exact Hrows.
  - rewrite Hsplit in Hgtv. injection Hgtv as -> -> -> -> ->.
    repeat split; assumption.
Qed.

Lemma this_facts :
  this <> [] /\ distinct this /\
  Forall (fun e => py_in (nth 2 e VNone) this = true) t1 /\
  Forall (fun k => exists e, In e t1 /\ nth 2 e VNone = k) this.
Proof.
  destruct errors_split_facts as (_ & -> & _ & Hne & _ & _).
  repeat split.
  - destruct t1 as [|e t]; [congruence|].
    unfold first_seen, names_of. cbn [map seen_into py_in existsb app].
    apply seen_into_nonempty. discriminate.
  - now apply seen_into_distinct.
  - apply Forall_forall. intros e He. apply seen_into_covers.
    unfold names_of. exact (in_map (fun e => nth 2 e VNone) _ _ He).
  - unfold first_seen.
    assert (H : forall l acc,
               Forall (fun k => In k (names_of 2 t1)) acc ->
               incl l (names_of 2 t1) ->
               Forall (fun k => In k (names_of 2 t1)) (seen_into acc l)).
    { induction l as [|n l IH]; intros acc Hacc Hl; simpl; [exact Hacc|].
      apply IH; [|eapply incl_cons_inv; eassumption].
      destruct (py_in n acc); [exact Hacc|].
      apply Forall_app. split; [exact Hacc|].
      constructor; [|constructor]. apply Hl. now left. }
    specialize (H (names_of 2 t1) [] (Forall_nil _) (incl_refl _)).
    revert H. apply Forall_impl. intros k Hk.
    unfold names_of in Hk. apply in_map_iff in Hk as (e & <- & He).
    now exists e.
Qed.

(** The function as the steps that are left once the rows are split. *)
Lemma errors_steps :
  fst (query_most_errors_by_period experimental project_id start_time
         end_time time_step conn)
  = if Z.eqb (sessions_total t1) 0 then Raise ZeroDivisionError
    else
      Py.bind
        (for_each (not_in this (not_in this last))
           (fun error_increase n =>
              Py.bind (Np.where_eq t1 2 n) (fun rows1 =>
              Py.bind (Np.column rows1 2) (fun c1 =>
              Py.bind (Np.sum c1) (fun s1 =>
              Py.bind (Np.where_eq t2 2 n) (fun rows2 =>
              Py.bind (Np.column rows2 2) (fun c2 =>
              Py.bind (Np.sum c2) (fun s2 =>
              Py.bind (py_sub s1 s2) (fun delta =>
              Ok (dict_set error_increase n delta)))))))))
           [])
        (fun error_increase =>
           Py.bind
             (sorted (@snd value value) true
                (map (fun k =>
                        (k, VFloat (inject_Z (sessions_for k t1)
                                    / inject_Z (sessions_total t1))))
                   this))
             (fun by_share =>
                Py.bind (sorted (@snd value value) true error_increase)
                  (fun by_delta =>
                     Ok (Compared {| ratio := by_share;
                                     increase := by_delta;
                                     new_events := not_in this last |})))).
Proof.
  destruct errors_split_facts as (Hcols & _ & _ & _ & Hc1 & _).
  destruct this_facts as (Hne & Hd & _ & _).
  unfold query_most_errors_by_period.
  rewrite Hstep. unfold lift at 1. cbn [bindM].
  unfold run. rewrite Hres. cbn [bindM].
  unfold lift. rewrite Hsplit. cbn [Py.bind fst].
  rewrite Hcols.
  change (index errors_columns "sessions") with (@Ok nat 1%nat).
  change (index errors_columns "names") with (@Ok nat 2%nat).
  cbn [Py.bind].
  rewrite (column_sessions Hc1). cbn [Py.bind].
  rewrite sum_sessions_column. cbn [Py.bind].
  destruct (Z.eqb_spec (sessions_total t1) 0) as [Hz | Hnz].
  - rewrite Hz. destruct this as [|k ks]; [congruence|].
    rewrite share_loop_zero by exact Hc1. reflexivity.
  - rewrite share_loop; try assumption.
    + reflexivity.
    + apply Forall_forall. intros k _. constructor.
Qed.

Let shares : list (value * value) :=
  map (fun k => (k, VFloat (inject_Z (sessions_for k t1)
                            / inject_Z (sessions_total t1)))) this.


(** C3 (what the code does): with sessions counted and a key common to both
    periods, the errors function raises TypeError: the increase is taken
    over the names column, not over the sessions column. *)
Theorem errors_common_key_raises :
  sessions_total t1 <> 0%Z ->
  not_in this (not_in this last) <> [] ->
  fst (query_most_errors_by_period experimental project_id start_time
         end_time time_step conn) = Raise TypeError.
Proof.
  intros Htotal Hcommon. rewrite errors_steps.
  apply Z.eqb_neq in Htotal. rewrite Htotal.
  destruct errors_split_facts as (_ & _ & _ & _ & Hc1 & Hc2).
  destruct this_facts as (_ & _ & _ & Hthis).
  destruct (not_in this (not_in this last)) as [|k ks] eqn:E; [congruence|].
  rewrite delta_loop_raises; try assumption; [reflexivity|].
  assert (Hk : In k this).
  { assert (H : In k (k :: ks)) by now left.
    rewrite <- E in H. unfold not_in in H. now apply filter_In in H. }
  rewrite Forall_forall in Hthis. now apply Hthis.
Qed.


(** Without a key common to both periods no delta is computed. *)
Lemma errors_no_common_key :
  sessions_total t1 <> 0%Z ->
  not_in this (not_in this last) = [] ->
  exists c,
    fst (query_most_errors_by_period experimental project_id start_time
           end_time time_step conn) = Ok (Compared c) /\
    increase c = [] /\ new_events c = not_in this last.
Proof.
  intros Htotal Hcommon. rewrite errors_steps, Hcommon.
  apply Z.eqb_neq in Htotal. rewrite Htotal.
  destruct (@sorted_reverse_floats shares) as (s & Hs & _).
  { unfold shares. apply Forall_map, Forall_forall. intros k _.
    eexists. reflexivity. }
  change (map _ this) with shares. cbn [for_each Py.bind].
  rewrite Hs. cbn. eauto.
Qed.
End Errors.

(** ** Degenerate inputs *)

Lemma not_in_nil (l : list value) : not_in l [] = l.
Proof. unfold not_in. apply filter_all. now apply Forall_forall. Qed.

Lemma not_in_self (l : list value) : not_in l l = [].
Proof.
  unfold not_in. apply filter_none, Forall_forall. intros x Hx.
  apply negb_false_iff, py_in_true. exists x. split; [exact Hx|].
  apply py_eq_refl.
Qed.

(** C8 (amended): on rows that hold both columns the splitter returns; when
    all rows are of one bucket the previous rows and keys are empty, every
    current key is new and none common, and the errors category then returns
    an empty increase list. *)
Theorem split_total_on_rows (time_index name_index : string) (r0 : row)
  (others : list row) (jt jn : nat) :
  same_columns (r0 :: others) ->
  index (keys r0) time_index = Ok jt ->
  index (keys r0) name_index = Ok jn ->
  let response := r0 :: others in
  (exists current_rows previous_rows current_keys previous_keys,
      __get_two_values response time_index name_index
      = Ok (current_rows, previous_rows, keys r0, current_keys,
            previous_keys)) /\
  (forall T,
      Forall (fun r => bucket jt (values r) = Some T) response ->
      exists current_keys,
        __get_two_values response time_index name_index
        = Ok (map values response, [], keys r0, current_keys, []) /\
        not_in current_keys [] = current_keys /\
        not_in current_keys (not_in current_keys []) = [] /\
        (forall experimental project_id start_time end_time time_step conn
                function steps,
            time_index = "hh" -> name_index = "names" ->
            __handle_timestep time_step = Ok (function, steps) ->
            execute (connect experimental conn)
              (make_query ERROR function steps project_id start_time end_time)
            = Ok response ->
            forallb errors_row response = true ->
            sessions_total (map values response) <> 0%Z ->
            exists c,
              fst (query_most_errors_by_period experimental project_id
                     start_time end_time time_step conn) = Ok (Compared c) /\
              increase c = [] /\ new_events c = current_keys)).
Proof.
  intros Hcols Hjt Hjn. cbv zeta. split.
  - destruct (get_two_values_returns _ _ Hcols Hjt Hjn)
      as (a & b & Hgtv & _ & _).
    rewrite Hgtv. eauto 6.
  - intros T Hone.
    pose proof (same_columns_readable _ Hcols Hjn) as Hread.
    inversion Hone as [|? ? Hb0 Hothers]; subst.
    assert (Hgtv : __get_two_values (r0 :: others) time_index name_index
                   = Ok (map values (r0 :: others), [], keys r0,
                         first_seen (names_of jn (map values (r0 :: others))),
                         [])).
    { cbn [map]. apply get_two_values_one_bucket with (jt := jt) (T := T);
        try assumption; [reflexivity|].
      apply Forall_map. revert Hothers. apply Forall_impl.
      intros r Hr. now apply in_bucket_bucket. }
    eexists. split; [exact Hgtv|].
    rewrite not_in_nil, not_in_self. repeat split.
    intros experimental project_id start_time end_time time_step conn
      function steps -> -> Hstep Hres Hrows Htotal.
    destruct (errors_no_common_key experimental project_id start_time end_time
                time_step conn Hstep Hres Hrows Hgtv Htotal)
      as (c & Hc & Hinc & Hnew).
    + now rewrite not_in_nil, not_in_self.
    + exists c. rewrite not_in_nil in Hnew. repeat split; assumption.
Qed.

(** ** The properties on sample data *)

Import Samples.

Lemma new_and_common_keys_witness :
  In (VStr "A") (not_in [VStr "A"; VStr "B"; VStr "C"]
                   [VStr "B"; VStr "C"; VStr "D"]) /\
  not_in [VStr "A"; VStr "B"; VStr "C"]
    (not_in [VStr "A"; VStr "B"; VStr "C"] [VStr "B"; VStr "C"; VStr "D"])
  = [VStr "B"; VStr "C"].
Proof.
  destruct (new_and_common_keys [VStr "A"; VStr "B"; VStr "C"]
              [VStr "B"; VStr "C"; VStr "D"]) as (_ & Hcommon & Hin).
  split.
  - apply (Hin (VStr "A")); [now left | reflexivity].
  - exact Hcommon.
Defined.


Lemma errors_common_key_raises_witness :
  fst (query_most_errors_by_period (source common_rows) project start stop
         hour None) = Raise TypeError.
Proof.
  apply (@errors_common_key_raises (source common_rows) project start stop hour
           None "toStartOfHour({0})" 3600%Z common_rows
           eq_refl eq_refl eq_refl
           (map values [error_row T2 10 "B"])
           (map values [error_row T1 4 "B"])
           errors_columns [VStr "B"] [VStr "B"] eq_refl);
    discriminate.
Defined.



Lemma fetch_selected_raw_rows_witness :
  exists report,
    fst (fetch_selected (source five_rows) ["rage"; "resources"] project start
           stop hour) = Ok report /\
    report_get report "rage" = Some (RawRows five_rows) /\
    report_get report "resources" = Some (RawRows five_rows).
Proof.
  eexists. split; [reflexivity|].
  destruct (@fetch_selected_raw_rows (source five_rows) project start stop hour
              ["rage"; "resources"] _ eq_refl) as [Hrage Hresources].
  split.
  - destruct Hrage as (f & st & res & _ & Hres & Hget); [now left|].
    injection Hres as <-. exact Hget.
  - destruct Hresources as (f & st & res & _ & Hres & Hget);
      [right; now left|].
    injection Hres as <-. exact Hget.
Defined.

Lemma split_total_on_rows_witness :
  exists current_keys,
    __get_two_values one_bucket_rows "hh" "names"
    = Ok (map values one_bucket_rows, [], errors_columns, current_keys, []) /\
    exists c,
      fst (query_most_errors_by_period (source one_bucket_rows) project start
             stop hour None) = Ok (Compared c) /\
      increase c = [] /\ new_events c = current_keys.
Proof.
  destruct (@split_total_on_rows "hh" "names" (error_row T2 3 "A")
              [error_row T2 1 "B"] 0 2) as [_ Hone].
  - repeat constructor.
  - reflexivity.
  - reflexivity.
  - destruct (Hone T2) as (current_keys & Hsplit & _ & _ & Herrors).
    + repeat constructor.
    + exists current_keys. split; [exact Hsplit|].
      apply (Herrors (source one_bucket_rows) project start stop hour None
               "toStartOfHour({0})" 3600%Z);
        try reflexivity. discriminate.
Defined.

(** C8 (as stated) fails: on no row the splitter raises. *)
Lemma split_empty_raises :
  __get_two_values [] "hh" "names" = Raise IndexError.
Proof. reflexivity. Qed.

(** The requests category on rows of one bucket: no key is common, and the
    rows of the last common key are read before any was bound. *)
Example requests_one_bucket_unbound :
  fst (query_requests_by_period (source one_bucket_requests) project start
         stop hour None) = Raise UnboundLocalError.
Proof. reflexivity. Qed.

Lemma fetch_selected_first_failure_witness :
  fetch_selected (source no_session_rows) ["errors"; "rage"] project start stop
    hour
  = (Raise ZeroDivisionError, [errors_query]).
Proof.
  apply (@fetch_selected_first_failure (source no_session_rows) project start
           stop hour ["errors"; "rage"] [] ["rage"] "errors"
           (query_most_errors_by_period (source no_session_rows) project start
              stop hour (Some (source no_session_rows)))
           ZeroDivisionError eq_refl (Forall_nil _) eq_refl eq_refl).
Defined.

(** C9 (as stated) fails: the rage category alone succeeds, yet the build
    that also selects errors returns no report and never asks for rage. *)
Lemma fetch_selected_aborts_on_errors :
  fst (fetch_selected (source no_session_rows) ["rage"] project start stop hour)
  = Ok [("rage", RawRows no_session_rows)] /\
  fetch_selected (source no_session_rows) ["errors"; "rage"] project start stop
    hour
  = (Raise ZeroDivisionError, [errors_query]).
Proof. split; reflexivity. Qed.

Lemma fetch_selected_unrecognized_witness :
  fetch_selected (source five_rows) ["clicks"; "Errors"] project start stop
    (VStr "fortnight")
  = (Ok [], []).
Proof.
  apply fetch_selected_unrecognized.
  - discriminate.
  - intros name Hname [H | [H | []]]; subst name;
      repeat (destruct Hname as [Hname | Hname]; [discriminate Hname|]);
      exact Hname.
Defined.


(** * Further properties of the module *)

(** ** Requests sent to the data source *)

Section Requests.
Variable experimental : ClickHouseClient.
Variables (project_id : Z) (start_time end_time : string).
Variable time_step : value.

Let call := category experimental project_id start_time end_time time_step.

Lemma category_event (name : string) :
  In name build_order <-> exists ev, event_of name = Some ev.
Proof.
  unfold build_order, event_of. split.
  - intros [<- | [<- | [<- | [<- | []]]]]; cbn; eauto.
  - destruct (String.eqb_spec name "errors") as [-> | _]; [simpl; tauto|].
    destruct (String.eqb_spec name "network") as [-> | _]; [simpl; tauto|].
    destruct (String.eqb_spec name "rage") as [-> | _]; [simpl; tauto|].
    destruct (String.eqb_spec name "resources") as [-> | _]; [simpl; tauto|].
    intros [ev [=]].
Qed.

(** A category whose time step is rejected raises before any request. *)
Lemma category_rejected (name : string) (e : exn) :
  __handle_timestep time_step = Raise e ->
  In name build_order ->
  call name = Some (Raise e, []).
Proof.
  intros Hstep. unfold call, category, build_order.
  intros [<- | [<- | [<- | [<- | []]]]]; cbn [String.eqb Ascii.eqb Bool.eqb];
    unfold query_most_errors_by_period, query_requests_by_period,
      query_click_rage_by_period, query_cpu_memory_by_period;
    rewrite Hstep; reflexivity.
Qed.

(** The common shape of the four category functions: the time step, one
    request, then a computation on the rows that sends nothing. *)
Lemma request_then_compute (ev : event_type) (function : string) (steps : Z)
  (k : list row -> result output) (c : M output) :
  __handle_timestep time_step = Ok (function, steps) ->
  c = bindM (lift (__handle_timestep time_step))
        (fun x => match x with
                  | (function, steps) =>
                      bindM (run experimental
                               (make_query ev function steps project_id
                                  start_time end_time))
                        (fun res => lift (k res))
                  end) ->
  snd c = [make_query ev function steps project_id start_time end_time] /\
  forall e,
    execute experimental
      (make_query ev function steps project_id start_time end_time)
    = Raise e ->
    fst c = Raise e.
Proof.
  intros Hstep ->. rewrite Hstep. unfold lift, run. cbn [bindM].
  destruct (execute experimental _) as [res|e'] eqn:E.
  - cbn. split; [reflexivity | discriminate].
  - cbn. split; [reflexivity|]. now intros e [= <-].
Qed.

(** A category whose time step is accepted sends its one request, and the
    failure of the data source is its failure. *)
Lemma category_accepted (name : string) (ev : event_type) (function : string)
  (steps : Z) :
  __handle_timestep time_step = Ok (function, steps) ->
  event_of name = Some ev ->
  exists c,
    call name = Some c /\
    snd c = [make_query ev function steps project_id start_time end_time] /\
    forall e,
      execute experimental
        (make_query ev function steps project_id start_time end_time)
      = Raise e ->
      fst c = Raise e.
Proof.
  intros Hstep. unfold call, category, event_of.
  destruct (String.eqb name "errors");
    [|destruct (String.eqb name "network");
      [|destruct (String.eqb name "rage");
        [|destruct (String.eqb name "resources"); [|discriminate]]]];
    intros [= <-]; eexists; (split; [reflexivity|]).
  - eapply request_then_compute; [exact Hstep | reflexivity].
  - eapply request_then_compute; [exact Hstep | reflexivity].
  - apply request_then_compute with (k := fun res => Ok (RawRows res));
      [exact Hstep | reflexivity].
  - apply request_then_compute with (k := fun res => Ok (RawRows res));
      [exact Hstep | reflexivity].
Qed.

(** X5: each category function validates the time step before it touches the
    data source: a rejected time step raises with no request sent; an
    accepted one sends exactly the request of the category, and an exception
    of the data source leaves the function unchanged. *)
Theorem category_requests (name : string) (ev : event_type) :
  event_of name = Some ev ->
  exists c,
    call name = Some c /\
    (forall e, __handle_timestep time_step = Raise e -> c = (Raise e, [])) /\
    (forall function steps,
        __handle_timestep time_step = Ok (function, steps) ->
        snd c = [make_query ev function steps project_id start_time end_time] /\
        forall e,
          execute experimental
            (make_query ev function steps project_id start_time end_time)
          = Raise e ->
          fst c = Raise e).
Proof.
  intros Hev.
  assert (Hname : In name build_order) by (apply category_event; eauto).
  destruct (__handle_timestep time_step) as [[function steps]|e] eqn:Hstep.
  - destruct (category_accepted name Hstep Hev) as (c & Hc & Hsent & Hfail).
    exists c. split; [exact Hc|]. split; [discriminate|].
    intros f st [= <- <-]. now split.
  - exists (Raise e, []). split; [now apply category_rejected|].
    split; [|discriminate]. now intros e' [= <-].
Qed.

(** X6: a build whose time step is rejected raises the assertion's error
    and sends no request, as soon as one of the four names is selected. *)
Theorem fetch_selected_rejected_time_step (selectedEvents : list string)
  (name : string) (e : exn) :
  __handle_timestep time_step = Raise e ->
  In name build_order -> In name selectedEvents ->
  fetch_selected experimental selectedEvents project_id start_time end_time
    time_step
  = (Raise e, []).
Proof.
  intros Hstep Hname Hsel.
  rewrite fetch_selected_compute_all by (intros ->; contradiction).
  fold call.
  assert (Hatt : In name (attempted selectedEvents)).
  { unfold attempted. apply filter_In. split; [exact Hname|].
    now apply str_in_In. }
  destruct (attempted selectedEvents) as [|n rest] eqn:E; [contradiction|].
  assert (Hn : In n build_order).
  { assert (H : In n (attempted selectedEvents)) by (rewrite E; now left).
    unfold attempted in H. now apply filter_In in H. }
  cbn [compute_all]. now rewrite (category_rejected Hstep Hn).
Qed.

(** X7: the build depends on the selection only through which of the four
    names it holds: order, repetitions and other names change nothing. *)
Theorem fetch_selected_membership (selection1 selection2 : list string) :
  selection1 <> [] -> selection2 <> [] ->
  (forall name, In name build_order ->
                (In name selection1 <-> In name selection2)) ->
  fetch_selected experimental selection1 project_id start_time end_time
    time_step
  = fetch_selected experimental selection2 project_id start_time end_time
      time_step.
Proof.
  intros H1 H2 Hsame.
  rewrite !fetch_selected_compute_all by assumption.
  f_equal. unfold attempted. apply filter_ext_in. intros name Hname.
  specialize (Hsame name Hname). rewrite <- !str_in_In in Hsame.
  destruct (str_in name selection1), (str_in name selection2);
    try reflexivity; destruct Hsame as [Ha Hb];
    [now specialize (Ha eq_refl) | now specialize (Hb eq_refl)].
Qed.
End Requests.

(** ** The report of a build that succeeds *)

Lemma report_set_fresh (d : list (string * output)) (name : string)
  (v : output) :
  report_get d name = None -> report_set d name v = d ++ [(name, v)].
Proof.
  induction d as [|[k w] d IH]; simpl; [reflexivity|].
  destruct (String.eqb k name); [discriminate|].
  intros H. now rewrite IH.
Qed.

Lemma report_get_snoc (d : list (string * output)) (name m : string)
  (v : output) :
  report_get (d ++ [(name, v)]) m
  = match report_get d m with
    | Some w => Some w
    | None => if String.eqb name m then Some v else None
    end.
Proof.
  induction d as [|[k w] d IH]; simpl; [reflexivity|].
  now destruct (String.eqb k m).
Qed.

Section Report.
Variable call : string -> option (M output).

Lemma compute_all_succeed (names : list string) :
  forall acc,
    NoDup names ->
    (forall n, In n names -> report_get acc n = None) ->
    Forall (fun n => succeeds (call n)) names ->
    exists report,
      compute_all call names acc
      = (Ok report, flat_map (fun n => requests_of (call n)) names) /\
      map fst report = map fst acc ++ names /\
      (forall n, In n names -> report_get report n = answer_of (call n)) /\
      (forall n, ~ In n names -> report_get report n = report_get acc n).
Proof.
  induction names as [|name names IH]; intros acc Hnd Hfresh Hok.
  - exists acc. simpl. rewrite app_nil_r. repeat split; tauto.
  - inversion Hnd as [|? ? Hnotin Hnd']; subst.
    inversion Hok as [|? ? (c & out & Hc & Hout) Hok']; subst.
    cbn [compute_all flat_map]. rewrite Hc.
    destruct c as [[r|e] sent]; simpl in Hout; [|discriminate].
    injection Hout as ->. cbn [bindM requests_of snd].
    rewrite report_set_fresh by (apply Hfresh; now left).
    destruct (IH (acc ++ [(name, out)]) Hnd') as (report & Hrun & Hkeys & Hin & Hout);
      [|exact Hok'|].
    { intros n Hn. rewrite report_get_snoc, (Hfresh n) by now right.
      destruct (String.eqb_spec name n) as [-> | _]; [contradiction|].
      reflexivity. }
    exists report. rewrite Hrun. split; [reflexivity|]. split; [|split].
    + rewrite Hkeys, map_app, <- app_assoc. reflexivity.
    + intros n [<- | Hn]; [|now apply Hin].
      rewrite (Hout name Hnotin), report_get_snoc.
      rewrite (Hfresh name) by now left.
      rewrite String.eqb_refl, Hc. reflexivity.
    + intros n Hn. rewrite Hout by (intros H; apply Hn; now right).
      rewrite report_get_snoc.
      destruct (report_get acc n); [reflexivity|].
      destruct (String.eqb_spec name n) as [-> | _]; [|reflexivity].
      elim Hn. now left.
Qed.
End Report.

(** X8: when every selected category succeeds, the report holds exactly the
    selected categories among errors, network, rage and resources, in that
    order, each with what its function returned, and the requests sent are
    those of the categories in the same order. *)
Theorem fetch_selected_report (experimental : ClickHouseClient)
  (project_id : Z) (start_time end_time : string) (time_step : value)
  (selectedEvents : list string) :
  let call := category experimental project_id start_time end_time time_step in
  selectedEvents <> [] ->
  Forall (fun n => succeeds (call n)) (attempted selectedEvents) ->
  exists report,
    fetch_selected experimental selectedEvents project_id start_time end_time
      time_step
    = (Ok report,
       flat_map (fun n => requests_of (call n)) (attempted selectedEvents)) /\
    map fst report = attempted selectedEvents /\
    (forall n, In n (attempted selectedEvents) ->
               report_get report n = answer_of (call n)) /\
    (forall n, ~ In n (attempted selectedEvents) -> report_get report n = None).
Proof.
  intros call Hne Hok.
  rewrite fetch_selected_compute_all by exact Hne. fold call.
  destruct (@compute_all_succeed call (attempted selectedEvents) [])
    as (report & Hrun & Hkeys & Hin & Hout); try assumption.
  - unfold attempted. apply NoDup_filter. unfold build_order.
    repeat constructor; simpl; intuition discriminate.
  - reflexivity.
  - exists report. repeat split; assumption.
Qed.

(** ** The splitter on rows in any order *)

Lemma index_missing (l : list string) (x : string) :
  ~ In x l -> index l x = Raise ValueError.
Proof.
  induction l as [|y l IH]; simpl; [reflexivity|].
  intros H. destruct (String.eqb_spec y x) as [-> | _].
  - elim H. now left.
  - rewrite IH; [reflexivity|]. intros Hx. apply H. now right.
Qed.

Lemma index_present (l : list string) (x : string) :
  In x l -> exists i, index l x = Ok i.
Proof.
  induction l as [|y l IH]; simpl; [tauto|].
  intros H. destruct (String.eqb_spec y x) as [-> | Hne]; [now exists O|].
  destruct H as [-> | H]; [congruence|].
  destruct (IH H) as [i ->]. now exists (S i).
Qed.

Lemma for_rows_raises (jt jn : nat) (table : Np.table) :
  forall st e, for_rows jt jn table st = Raise e -> e = IndexError.
Proof.
  assert (Hget : forall (l : list value) j e,
             getitem l j = Raise e -> e = IndexError).
  { intros l j e. unfold getitem. destruct (nth_error l j); congruence. }
  induction table as [|r table IH]; intros st e; simpl; [discriminate|].
  destruct (getitem r jt) as [t|e'] eqn:Et; simpl.
  2:{ intros [= <-]. eapply Hget; eassumption. }
  destruct (_ && _); [discriminate|].
  destruct (_ =? 1)%nat; [|destruct (_ =? 2)%nat].
  - destruct (getitem r jn) as [n|e'] eqn:En; simpl; [apply IH|].
    intros [= <-]. eapply Hget; eassumption.
  - destruct (getitem r jn) as [n|e'] eqn:En; simpl; [apply IH|].
    intros [= <-]. eapply Hget; eassumption.
  - apply IH.
Qed.

(** X1: on a non-empty response the splitter raises ValueError when the first
    row lacks the time or the key column, whatever the rows hold; with both
    columns in the first row its only failure is the IndexError of a later
    row that does not have the columns of the first. *)
Theorem split_failures (time_index name_index : string) (r0 : row)
  (others : list row) :
  ((~ In name_index (keys r0) \/ ~ In time_index (keys r0)) ->
   __get_two_values (r0 :: others) time_index name_index = Raise ValueError) /\
  (In name_index (keys r0) -> In time_index (keys r0) ->
   forall e,
     __get_two_values (r0 :: others) time_index name_index = Raise e ->
     e = IndexError /\ ~ same_columns (r0 :: others)).
Proof.
  split.
  - intros Hmissing. unfold __get_two_values.
    change (getitem (r0 :: others) 0) with (Ok r0). cbn [Py.bind].
    destruct (index (keys r0) name_index) as [jn|e] eqn:En.
    + cbn [Py.bind]. destruct Hmissing as [H | H].
      * now rewrite (index_missing _ _ H) in En.
      * now rewrite (index_missing _ _ H).
    + destruct Hmissing as [H | H].
      * rewrite (index_missing _ _ H) in En. now injection En as <-.
      * destruct (in_dec string_dec name_index (keys r0)) as [Hn | Hn].
        -- destruct (index_present _ _ Hn) as [i Hi]. congruence.
        -- rewrite (index_missing _ _ Hn) in En. now injection En as <-.
  - intros Hn Ht e Hraise.
    destruct (index_present _ _ Hn) as [jn Hjn].
    destruct (index_present _ _ Ht) as [jt Hjt].
    split.
    + unfold __get_two_values in Hraise.
      change (getitem (r0 :: others) 0) with (Ok r0) in Hraise.
      cbn [Py.bind] in Hraise. rewrite Hjn in Hraise. cbn [Py.bind] in Hraise.
      rewrite Hjt in Hraise. cbn [Py.bind] in Hraise.
      destruct (for_rows jt jn _ no_rows) as [st|e'] eqn:E;
        cbn [Py.bind] in Hraise; [discriminate|].
      injection Hraise as <-. eapply for_rows_raises; eassumption.
    + intros Hcols.
      destruct (get_two_values_returns _ _ Hcols Hjt Hjn)
        as (a & b & Hgtv & _). congruence.
Qed.

Section ScanUnordered.
Variables jt jn : nat.

Lemma carries_getitem (hh : list value) (e : list value) :
  carries jt hh e ->
  exists v, getitem e jt = Ok v /\ py_in v hh = true.
Proof.
  intros (v & Hv & Hin). exists v. unfold getitem. now rewrite Hv.
Qed.

(** Once two timestamps are known, a row of either one is a previous row. *)
Lemma for_rows_second_any (B tail : Np.table) :
  forall st,
    List.length (hh_vals st) = 2%nat ->
    Forall (fun e => carries jt (hh_vals st) e /\ (jn < List.length e)%nat) B ->
    (tail = [] \/
     exists e v rest, tail = e :: rest /\ nth_error e jt = Some v /\
                      py_in v (hh_vals st) = false) ->
    for_rows jt jn (B ++ tail) st
    = Ok (Locals (table_hh1 st) (table_hh2 st ++ B) (hh_vals st)
            (names_hh1 st) (seen_into (names_hh2 st) (names_of jn B))).
Proof.
  induction B as [|e B IH]; intros st Hlen HB Htail.
  - simpl. rewrite app_nil_r.
    destruct Htail as [-> | (e & v & rest & -> & Hv & Hin)].
    + now destruct st.
    + simpl. unfold getitem. rewrite Hv. simpl. rewrite Hin, Hlen. simpl.
      now destruct st.
  - inversion HB as [|? ? [Hc Hread] HB']; subst.
    destruct (carries_getitem Hc) as (v & Hv & Hin).
    simpl. rewrite Hv. simpl. rewrite Hin. simpl.
    rewrite (getitem_nth _ Hread). simpl. rewrite Hlen. simpl.
    rewrite IH; [|exact Hlen | exact HB' | exact Htail]. simpl.
    rewrite seen_into_step, <- app_assoc. reflexivity.
Qed.

Lemma for_rows_current_then_any (T T1 : Z) (A B tail : Np.table)
  (e1 : list value) :
  forall st,
    hh_vals st = [VTime T] ->
    Forall (fun e => in_bucket jt T e = true /\ (jn < List.length e)%nat) A ->
    bucket jt e1 = Some T1 -> T1 <> T -> (jn < List.length e1)%nat ->
    Forall (fun e => carries jt [VTime T; VTime T1] e /\
                     (jn < List.length e)%nat) B ->
    (tail = [] \/
     exists e v rest, tail = e :: rest /\ nth_error e jt = Some v /\
                      py_in v [VTime T; VTime T1] = false) ->
    for_rows jt jn (A ++ e1 :: B ++ tail) st
    = Ok (Locals (table_hh1 st ++ A) (table_hh2 st ++ e1 :: B)
            [VTime T; VTime T1]
            (seen_into (names_hh1 st) (names_of jn A))
            (seen_into (names_hh2 st) (names_of jn (e1 :: B)))).
Proof.
  induction A as [|e A IH]; intros st Hhh HA Hb1 Hne Hread1 HB Htail.
  - simpl. rewrite (bucket_cell _ _ Hb1). simpl. rewrite Hhh. simpl.
    apply Z.eqb_neq in Hne. rewrite Z.eqb_sym in Hne. rewrite Hne. simpl.
    rewrite (getitem_nth _ Hread1). simpl.
    rewrite for_rows_second_any; [|reflexivity | exact HB | exact Htail].
    simpl. rewrite <- app_assoc, app_nil_r.
    now destruct (py_in (nth jn e1 VNone) (names_hh2 st)).
  - inversion HA as [|? ? [Hin Hread] HA']; subst.
    apply in_bucket_bucket in Hin.
    simpl. rewrite (bucket_cell _ _ Hin). simpl. rewrite Hhh. simpl.
    rewrite Z.eqb_refl. simpl.
    rewrite (getitem_nth _ Hread). simpl.
    rewrite IH; try assumption; [|reflexivity]. simpl.
    rewrite <- app_assoc.
    now destruct (py_in (nth jn e VNone) (names_hh1 st)).
Qed.

(** The scan keeps its invariant. *)
Lemma for_rows_invariant (t0 : value) (table : Np.table) :
  forall st st',
    scan_invariant jt t0 st ->
    for_rows jt jn table st = Ok st' ->
    scan_invariant jt t0 st'.
Proof.
  induction table as [|e table IH]; intros st st' Hinv; simpl.
  - now intros [= <-].
  - destruct (getitem e jt) as [t|] eqn:Et; simpl; [|discriminate].
    assert (Hcell : nth_error e jt = Some t).
    { unfold getitem in Et. destruct (nth_error e jt); congruence. }
    destruct Hinv as [H1 [[Hhh H2] | (v1 & Hhh & Hv1 & H2)]]; rewrite Hhh.
    + (* one timestamp known *)
      cbn [List.length Nat.eqb andb]. rewrite andb_false_r.
      destruct (py_in t [t0]) eqn:Ein; cbn [negb List.length app Nat.eqb].
      * destruct (getitem e jn) as [n|]; simpl; [|discriminate].
        apply IH. split; simpl.
        -- apply Forall_app. split; [exact H1|].
           constructor; [|constructor]. now exists t.
        -- left. now split.
      * destruct (getitem e jn) as [n|]; simpl; [|discriminate].
        apply IH. split; simpl; [exact H1|].
        right. exists t. repeat split; [exact Ein|].
        rewrite H2. constructor; [|constructor].
        exists t. split; [exact Hcell|].
        simpl. now rewrite py_eq_refl, orb_true_r.
    + (* two timestamps known *)
      cbn [List.length Nat.eqb]. rewrite andb_true_r.
      destruct (py_in t [t0; v1]) eqn:Ein; cbn [negb List.length Nat.eqb].
      * destruct (getitem e jn) as [n|]; simpl; [|discriminate].
        apply IH. split; simpl; [exact H1|].
        right. exists v1. repeat split; [exact Hv1|].
        apply Forall_app. split; [exact H2|].
        constructor; [|constructor]. now exists t.
      * intros [= <-]. split; [exact H1|]. right. now exists v1.
Qed.
End ScanUnordered.

Section SplitAnyOrder.
Variables time_index name_index : string.
Variables (r0 : row) (others : list row) (jt jn : nat).
Hypothesis Hcols : same_columns (r0 :: others).
Hypothesis Hjt : index (keys r0) time_index = Ok jt.
Hypothesis Hjn : index (keys r0) name_index = Ok jn.

(** The splitter as the scan of the rows after the first. *)
Lemma get_two_values_scan :
  exists st,
    for_rows jt jn (map values others)
      (Locals [values r0] [] [nth jt (values r0) VNone]
         [nth jn (values r0) VNone] []) = Ok st /\
    __get_two_values (r0 :: others) time_index name_index
    = Ok (table_hh1 st, table_hh2 st, keys r0, names_hh1 st, names_hh2 st) /\
    nth_error (values r0) jt = Some (nth jt (values r0) VNone).
Proof.
  pose proof (same_columns_readable _ Hcols Hjt) as Hrt.
  pose proof (same_columns_readable _ Hcols Hjn) as Hrn.
  cbn [map] in Hrt, Hrn.
  inversion Hrt as [|? ? Ht0 Hrt']; subst.
  inversion Hrn as [|? ? Hn0 Hrn']; subst.
  assert (Hboth : Forall (fun e => (jt < List.length e)%nat /\
                                   (jn < List.length e)%nat)
                    (map values others)).
  { clear - Hrt' Hrn'. induction Hrt'; inversion Hrn'; subst;
      constructor; auto. }
  destruct (for_rows_total Hboth
              (Locals [values r0] [] [nth jt (values r0) VNone]
                 [nth jn (values r0) VNone] []))
    as [st Hst].
  exists st. split; [exact Hst|]. split.
  - unfold __get_two_values.
    change (getitem (r0 :: others) 0) with (Ok r0).
    cbn [Py.bind]. rewrite Hjn. cbn [Py.bind]. rewrite Hjt. cbn [Py.bind].
    cbn [map for_rows].
    rewrite (getitem_nth _ Ht0), (getitem_nth _ Hn0). cbn.
    now rewrite Hst.
  - now apply nth_error_nth'.
Qed.

(** X2: whatever the order of the rows, the current rows all carry the
    timestamp of the first row, the previous rows carry that one or one other
    timestamp, both are rows of the response, and each key list is the
    distinct keys of its rows in first-seen order. *)
Theorem split_invariants :
  exists t0 current_rows previous_rows,
    nth_error (values r0) jt = Some t0 /\
    __get_two_values (r0 :: others) time_index name_index
    = Ok (current_rows, previous_rows, keys r0,
          first_seen (names_of jn current_rows),
          first_seen (names_of jn previous_rows)) /\
    hd_error current_rows = Some (values r0) /\
    incl current_rows (map values (r0 :: others)) /\
    incl previous_rows (map values others) /\
    Forall (carries jt [t0]) current_rows /\
    (previous_rows = [] \/
     exists v1, py_eq t0 v1 = false /\
                Forall (carries jt [t0; v1]) previous_rows) /\
    distinct (first_seen (names_of jn current_rows)) /\
    distinct (first_seen (names_of jn previous_rows)) /\
    Forall (fun e => py_in (nth jn e VNone)
                       (first_seen (names_of jn current_rows)) = true)
      current_rows /\
    Forall (fun e => py_in (nth jn e VNone)
                       (first_seen (names_of jn previous_rows)) = true)
      previous_rows.
Proof.
  destruct get_two_values_scan as (st & Hst & Hgtv & Hcell).
  pose proof (for_rows_grows _ _ _ _ Hst)
    as (a & b & H1 & H2 & Ha & Hb & Hn1 & Hn2).
  simpl in H1, H2, Hn1, Hn2.
  assert (Hinv : scan_invariant jt (nth jt (values r0) VNone) st).
  { eapply for_rows_invariant; [|exact Hst]. split; simpl.
    - constructor; [|constructor]. eexists. split; [exact Hcell|].
      simpl. now rewrite py_eq_refl.
    - left. now split. }
  destruct Hinv as [Hcur Hprev].
  exists (nth jt (values r0) VNone), (table_hh1 st), (table_hh2 st).
  assert (Hk1 : names_hh1 st = first_seen (names_of jn (table_hh1 st))).
  { rewrite Hn1, H1. reflexivity. }
  assert (Hk2 : names_hh2 st = first_seen (names_of jn (table_hh2 st))).
  { rewrite Hn2, H2. reflexivity. }
  assert (Hcover : forall t, Forall (fun e => py_in (nth jn e VNone)
                                         (first_seen (names_of jn t)) = true) t).
  { intros t. apply Forall_forall. intros e He. apply seen_into_covers.
    unfold names_of. exact (in_map (fun e => nth jn e VNone) _ _ He). }
  rewrite <- Hk1, <- Hk2. split; [exact Hcell|]. split; [exact Hgtv|].
  rewrite Hk1, Hk2.
  repeat split; try apply Hcover; try (now apply seen_into_distinct).
  - now rewrite H1.
  - rewrite H1. cbn [map]. apply incl_cons; [now left | now apply incl_tl].
  - now rewrite H2.
  - exact Hcur.
  - destruct Hprev as [[_ ->] | (v1 & _ & Hv1 & Hall)]; [now left | right].
    exists v1. split; [|exact Hall].
    simpl in Hv1. now rewrite orb_false_r in Hv1.
Qed.
End SplitAnyOrder.

(** X3: the periods are told apart by how many timestamps were seen, not by
    the timestamp of the row: after a row of a second bucket, a row of the
    first bucket is a previous row, not a current one. *)
Theorem split_assigns_by_count (time_index name_index : string) (r0 : row)
  (others : list row) (jt jn : nat) (T T1 : Z) (e1 : list value)
  (A B tail : Np.table) :
  same_columns (r0 :: others) ->
  index (keys r0) time_index = Ok jt ->
  index (keys r0) name_index = Ok jn ->
  map values others = A ++ e1 :: B ++ tail ->
  bucket jt (values r0) = Some T ->
  Forall (fun e => in_bucket jt T e = true) A ->
  bucket jt e1 = Some T1 -> T1 <> T ->
  Forall (fun e => in_bucket jt T e = true \/ in_bucket jt T1 e = true) B ->
  (tail = [] \/
   exists e T0 rest, tail = e :: rest /\ bucket jt e = Some T0 /\
                     T0 <> T /\ T0 <> T1) ->
  __get_two_values (r0 :: others) time_index name_index
  = Ok (values r0 :: A, e1 :: B, keys r0,
        first_seen (names_of jn (values r0 :: A)),
        first_seen (names_of jn (e1 :: B))).
Proof.
  intros Hcols Hjt Hjn Hothers Hb0 HA Hb1 Hne HB Htail.
  pose proof (same_columns_readable _ Hcols Hjn) as Hread.
  cbn [map] in Hread. rewrite Hothers in Hread.
  inversion Hread as [|? ? Hread0 Hread']; subst.
  apply Forall_app in Hread' as [HreadA Hread1].
  inversion Hread1 as [|? ? Hread1' Hread2]; subst.
  apply Forall_app in Hread2 as [HreadB _].
  unfold __get_two_values.
  change (getitem (r0 :: others) 0) with (Ok r0).
  cbn [Py.bind]. rewrite Hjn. cbn [Py.bind]. rewrite Hjt. cbn [Py.bind].
  cbn [map]. rewrite Hothers.
  rewrite for_rows_first with (T := T) by assumption.
  rewrite for_rows_current_then_any with (T := T) (T1 := T1);
    try assumption; try reflexivity.
  - now apply Forall_and.
  - apply Forall_and; [|exact HreadB].
    revert HB. apply Forall_impl. intros e [He | He];
      apply in_bucket_bucket in He; unfold bucket in He;
      destruct (nth_error e jt) as [[]|] eqn:Ecell; try discriminate;
      injection He as ->; eexists; (split; [exact Ecell|]); simpl;
      rewrite Z.eqb_refl; now rewrite ?orb_true_r.
  - destruct Htail as [-> | (e & T0 & rest & -> & Hb & H0 & H1)];
      [now left | right].
    exists e, (VTime T0), rest. split; [reflexivity|].
    unfold bucket in Hb.
    destruct (nth_error e jt) as [[]|] eqn:Ecell; try discriminate.
    injection Hb as ->. split; [reflexivity|]. simpl.
    apply Z.eqb_neq in H0, H1. rewrite Z.eqb_sym in H0, H1.
    now rewrite H0, H1.
Qed.

(** ** What the errors function returns *)

Lemma not_in_twice (l m : list value) :
  not_in l (not_in l m) = filter (fun x => py_in x m) l.
Proof.
  unfold not_in at 1. apply filter_ext_in. intros x Hx.
  rewrite py_in_not_in by exact Hx. apply negb_involutive.
Qed.

Lemma no_common_all_new (l m : list value) :
  not_in l (not_in l m) = [] -> not_in l m = l.
Proof.
  rewrite not_in_twice. intros H. unfold not_in. apply filter_all.
  apply Forall_forall. intros x Hx.
  destruct (py_in x m) eqn:E; [|reflexivity].
  assert (Hin : In x (filter (fun x => py_in x m) l))
    by (apply filter_In; now split).
  rewrite H in Hin. contradiction.
Qed.

Lemma sessions_for_bounds (k : value) (t : Np.table) :
  Forall (fun e => (0 <= sessions_of e)%Z) t ->
  (0 <= sessions_for k t <= sessions_total t)%Z.
Proof.
  induction 1 as [|e t He _ IH].
  - unfold sessions_for. simpl. lia.
  - rewrite sessions_for_cons. simpl.
    destruct (py_eq (nth 2 e VNone) k); lia.
Qed.

Section ErrorsReturn.
Variable experimental : ClickHouseClient.
Variables (project_id : Z) (start_time end_time : string).
Variable time_step : value.
Variable conn : option ClickHouseClient.
Variables (function : string) (steps : Z) (res : list row).

Hypothesis Hstep : __handle_timestep time_step = Ok (function, steps).
Hypothesis Hres :
  execute (connect experimental conn)
    (make_query ERROR function steps project_id start_time end_time)
  = Ok res.
Hypothesis Hrows : forallb errors_row res = true.

Variables (t1 t2 : Np.table) (cols : list string) (this last : list value).
Hypothesis Hsplit :
  __get_two_values res "hh" "names" = Ok (t1, t2, cols, this, last).

Let shares : list (value * value) :=
  map (fun k => (k, VFloat (inject_Z (sessions_for k t1)
                            / inject_Z (sessions_total t1)))) this.

Let errors_result : result output :=
  fst (query_most_errors_by_period experimental project_id start_time
         end_time time_step conn).

Lemma errors_returned (out : output) :
  errors_result = Ok out ->
  sessions_total t1 <> 0%Z /\
  not_in this (not_in this last) = [] /\
  exists by_share,
    Permutation shares by_share /\
    out = Compared {| ratio := by_share; increase := [];
                      new_events := not_in this last |}.
Proof.
  unfold errors_result.
  rewrite (errors_steps experimental project_id start_time end_time time_step
             conn Hstep Hres Hrows Hsplit).
  destruct (Z.eqb_spec (sessions_total t1) 0) as [Hz | Hnz]; [discriminate|].
  destruct (errors_split_facts res Hrows Hsplit)
    as (_ & _ & _ & _ & Hc1 & Hc2).
  destruct (this_facts res Hrows Hsplit) as (_ & _ & _ & Hthis).
  destruct (not_in this (not_in this last)) as [|k ks] eqn:E.
  - cbn [for_each Py.bind].
    change (map _ this) with shares.
    destruct (@sorted_reverse_floats shares) as (s & Hs & Hperm & _).
    { unfold shares. apply Forall_map, Forall_forall. intros k _.
      eexists. reflexivity. }
    rewrite Hs. cbn. intros [= <-]. repeat split; [exact Hnz|].
    now exists s.
  - rewrite delta_loop_raises; try assumption; [discriminate|].
    assert (Hk : In k this).
    { assert (H : In k (k :: ks)) by now left.
      rewrite <- E in H. unfold not_in in H. now apply filter_In in H. }
    rewrite Forall_forall in Hthis. now apply Hthis.
Qed.

(** X9: the errors function returns exactly when sessions were counted in
    the current period and no key is common to both periods; what it returns
    then has an empty increase list and all the current keys as new events. *)
Theorem errors_returns_iff :
  (forall out,
      errors_result = Ok out ->
      exists c, out = Compared c /\ increase c = [] /\ new_events c = this) /\
  ((exists out, errors_result = Ok out) <->
   sessions_total t1 <> 0%Z /\ not_in this (not_in this last) = []).
Proof.
  split; [|split].
  - intros out Hout.
    destruct (errors_returned Hout) as (_ & Hcommon & s & _ & ->).
    eexists. split; [reflexivity|]. split; [reflexivity|].
    cbn [new_events]. now apply no_common_all_new.
  - intros [out Hout].
    destruct (errors_returned Hout) as (Hnz & Hcommon & _). now split.
  - intros [Hnz Hcommon]. unfold errors_result.
    rewrite (errors_steps experimental project_id start_time end_time
               time_step conn Hstep Hres Hrows Hsplit).
    apply Z.eqb_neq in Hnz. rewrite Hnz, Hcommon. cbn [for_each Py.bind].
    destruct (@sorted_reverse_floats shares) as (s & Hs & _).
    { unfold shares. apply Forall_map, Forall_forall. intros k _.
      eexists. reflexivity. }
    change (map _ this) with shares. rewrite Hs. cbn. eauto.
Qed.

(** X10: with session counts that are not negative, every share the errors
    function returns lies between 0 and 1. *)
Theorem errors_shares_bounded (c : comparison) :
  Forall (fun e => (0 <= sessions_of e)%Z) t1 ->
  errors_result = Ok (Compared c) ->
  Forall (fun p => (0 <= share_of p /\ share_of p <= 1)%Q) (ratio c).
Proof.
  intros Hpos Hout.
  destruct (errors_returned Hout) as (Hnz & _ & s & Hperm & [= ->]).
  cbn [ratio]. apply (Permutation_Forall Hperm).
  unfold shares. apply Forall_map, Forall_forall. intros k _.
  unfold share_of. cbn [snd as_number].
  pose proof (sessions_for_bounds k Hpos) as [Hlo Hhi].
  assert (Htotal : (0 < inject_Z (sessions_total t1))%Q).
  { rewrite <- (Zlt_Qlt 0). lia. }
  split.
  - apply Qle_shift_div_l; [exact Htotal|].
    rewrite Qmult_0_l. now rewrite <- (Zle_Qle 0).
  - apply Qle_shift_div_r; [exact Htotal|].
    rewrite Qmult_1_l. now rewrite <- Zle_Qle.
Qed.
End ErrorsReturn.

(** ** The bucketing expression of a request *)

Lemma format_cons (c : ascii) (s arg : string) :
  c <> "{"%char ->
  format (String c s) arg = String c (format s arg).
Proof.
  intros Hc. destruct c as [b0 b1 b2 b3 b4 b5 b6 b7].
  destruct b0, b1, b2, b3, b4, b5, b6, b7;
    try reflexivity; now elim Hc.
Qed.

Lemma format_app (s1 s2 arg : string) :
  no_brace s1 ->
  format (s1 ++ s2) arg = (s1 ++ format s2 arg)%string.
Proof.
  induction s1 as [|c s1 IH]; intros H; [reflexivity|].
  destruct H as [Hc H]. cbn [String.append].
  rewrite format_cons by exact Hc. now rewrite IH.
Qed.

Lemma no_brace_uint (d : Decimal.uint) :
  no_brace (NilEmpty.string_of_uint d).
Proof. induction d; simpl; try exact I; split; try discriminate; exact IHd. Qed.

Lemma no_brace_str_of_int (n : Z) : no_brace (str_of_int n).
Proof.
  unfold str_of_int, NilZero.string_of_int.
  destruct (Z.to_int n) as [d | d]; unfold NilZero.string_of_uint.
  - destruct d; try apply no_brace_uint. simpl. split; [discriminate | exact I].
  - split; [discriminate|].
    destruct d; try apply no_brace_uint. simpl. split; [discriminate | exact I].
Qed.

Lemma handle_timestep_inv (time_step : value) (function : string) (steps : Z) :
  __handle_timestep time_step = Ok (function, steps) ->
  time_step = VStr "hour" \/ time_step = VStr "day" \/
  time_step = VStr "week" \/ exists n, time_step = VInt n.
Proof.
  unfold __handle_timestep.
  destruct time_step as [| n | q | s | t | l]; simpl; try discriminate.
  - intros _. right. right. right. now exists n.
  - destruct (String.eqb_spec s "hour") as [-> | _]; [now left|].
    destruct (String.eqb_spec s "day") as [-> | _]; [now right; left|].
    destruct (String.eqb_spec s "week") as [-> | _]; [now right; right; left|].
    discriminate.
Qed.

Lemma format_field (s arg : string) :
  format ("{0}" ++ s) arg = (arg ++ format s arg)%string.
Proof. reflexivity. Qed.

Lemma format_id (s arg : string) : no_brace s -> format s arg = s.
Proof.
  induction s as [|c s IH]; intros H; [reflexivity|].
  destruct H as [Hc H]. rewrite format_cons by exact Hc. now rewrite IH.
Qed.

Lemma no_brace_app (s1 s2 : string) :
  no_brace s1 -> no_brace s2 -> no_brace (s1 ++ s2).
Proof.
  induction s1 as [|c s1 IH]; intros H1 H2; [exact H2|].
  destruct H1 as [Hc H1]. split; [exact Hc | now apply IH].
Qed.

Lemma handle_timestep_format (time_step : value) (function : string)
  (steps : Z) (arg : string) :
  __handle_timestep time_step = Ok (function, steps) ->
  format function arg = bucketing_call time_step arg.
Proof.
  intros H.
  destruct (handle_timestep_inv _ H) as [-> | [-> | [-> | [n ->]]]];
    try (injection H as <- _; reflexivity).
  injection H as <- _.
  change (format ("toStartOfInterval("
                    ++ ("{0}" ++ (", INTERVAL "
                                    ++ (str_of_int n ++ " minute)")))) arg
          = bucketing_call (VInt n) arg).
  rewrite format_app by (simpl; intuition discriminate).
  rewrite format_field, format_id; [reflexivity|].
  apply (no_brace_app ", INTERVAL "); [simpl; intuition discriminate|].
  apply no_brace_app; [apply no_brace_str_of_int|].
  simpl; intuition discriminate.
Qed.

(** X4: for every accepted time step the request carries the bucket width
    and, for the window bounds and the event time, the ClickHouse bucketing
    call of the time step on the argument; the bounds are put in as they
    are, whatever characters they hold. *)
Theorem request_bucketing (time_step : value) (function : string) (steps : Z)
  (event : event_type) (project_id : Z) (start_time end_time : string) :
  __handle_timestep time_step = Ok (function, steps) ->
  make_query event function steps project_id start_time end_time
  = {| q_event := event;
       q_start := bucketing_call time_step
                    ("toDateTime64('" ++ start_time ++ "', 0)")%string;
       q_end := bucketing_call time_step
                  ("toDateTime64('" ++ end_time ++ "', 0)")%string;
       q_steps := steps;
       q_dtime := bucketing_call time_step "datetime";
       q_project_id := project_id |} /\
  bucket_seconds time_step = Ok steps.
Proof.
  intros H. split.
  - unfold make_query.
    rewrite !handle_timestep_format
      with (time_step := time_step) (steps := steps) by exact H.
    reflexivity.
  - unfold bucket_seconds. now rewrite H.
Qed.

(** ** The requests function *)

Lemma request_row_spec (r : row) :
  typed_request_row r = true ->
  keys r = request_columns /\ request_cells (values r) = true.
Proof.
  unfold typed_request_row. intros H. apply andb_true_iff in H as [H1 H2].
  split; [now apply list_eqb_string_eq | exact H2].
Qed.

Lemma request_cells_inv (e : list value) :
  request_cells e = true ->
  exists t s rate host path d,
    e = [VTime t; VInt s; VFloat rate; VStr host; VStr path; VFloat d].
Proof.
  destruct e as [|v0 [|v1 [|v2 [|v3 [|v4 [|v5 [|]]]]]]]; simpl;
    try discriminate;
    destruct v0; try discriminate; destruct v1; try discriminate;
    destruct v2; try discriminate; destruct v3; try discriminate;
    destruct v4; try discriminate; destruct v5; try discriminate.
  intros _. now do 6 eexists.
Qed.

Lemma requests_split (res : list row) :
  res <> [] ->
  forallb typed_request_row res = true ->
  exists t1 t2,
    __get_two_values res "hh" "source"
    = Ok (t1, t2, request_columns,
          first_seen (names_of 4 t1), first_seen (names_of 4 t2)) /\
    t1 <> [] /\
    Forall (fun e => request_cells e = true) t1 /\
    Forall (fun e => request_cells e = true) t2.
Proof.
  intros Hne Hrows. destruct res as [|r0 others]; [congruence|].
  rewrite forallb_forall in Hrows.
  assert (Hkeys : Forall (fun r => keys r = request_columns) (r0 :: others)).
  { apply Forall_forall. intros r Hr. now apply request_row_spec, Hrows. }
  assert (Hcells : Forall (fun e => request_cells e = true)
                     (map values (r0 :: others))).
  { apply Forall_map, Forall_forall. intros r Hr.
    now apply request_row_spec, Hrows. }
  assert (Hk0 : keys r0 = request_columns) by now inversion Hkeys.
  destruct (@get_two_values_returns "hh" "source" r0 others 0 4)
    as (a & b & Hgtv & Ha & Hb).
  - unfold same_columns. revert Hkeys. apply Forall_impl. congruence.
  - now rewrite Hk0.
  - now rewrite Hk0.
  - exists (values r0 :: a), b. rewrite Hgtv, Hk0.
    cbn [map] in Hcells. inversion Hcells as [|? ? H0 Hothers]; subst.
    rewrite Forall_forall in Hothers.
    repeat split; try discriminate.
    + constructor; [exact H0|]. apply Forall_forall. auto.
    + apply Forall_forall. auto.
Qed.

Lemma column_rates (t : Np.table) :
  Forall (fun e => request_cells e = true) t ->
  Np.column t 2 = Ok (map (fun e => VFloat (rate_of e)) t).
Proof.
  unfold Np.column. induction 1 as [|e l He _ IH]; [reflexivity|].
  apply request_cells_inv in He as (t0 & s & r & h & p & d & ->).
  cbn. rewrite IH. reflexivity.
Qed.

Lemma column_durations (t : Np.table) :
  Forall (fun e => request_cells e = true) t ->
  Np.column t 5 = Ok (map (fun e => VFloat (duration_of e)) t).
Proof.
  unfold Np.column. induction 1 as [|e l He _ IH]; [reflexivity|].
  apply request_cells_inv in He as (t0 & s & r & h & p & d & ->).
  cbn. rewrite IH. reflexivity.
Qed.

Lemma column_hosts (t : Np.table) :
  Forall (fun e => request_cells e = true) t ->
  Np.column t 3 = Ok (names_of 3 t).
Proof.
  unfold Np.column. induction 1 as [|e l He _ IH]; [reflexivity|].
  apply request_cells_inv in He as (t0 & s & r & h & p & d & ->).
  cbn. rewrite IH. reflexivity.
Qed.

Lemma column_paths (t : Np.table) :
  Forall (fun e => request_cells e = true) t ->
  Np.column t 4 = Ok (names_of 4 t).
Proof.
  unfold Np.column. induction 1 as [|e l He _ IH]; [reflexivity|].
  apply request_cells_inv in He as (t0 & s & r & h & p & d & ->).
  cbn. rewrite IH. reflexivity.
Qed.

Lemma where_eq_paths (t : Np.table) (k : value) :
  Forall (fun e => request_cells e = true) t ->
  Np.where_eq t 4 k = Ok (rows_for k t).
Proof.
  intros Hcells.
  unfold Np.where_eq. rewrite (column_paths Hcells). cbn [Py.bind].
  apply f_equal. unfold names_of, rows_for. clear Hcells.
  induction t as [|e l IH]; [reflexivity|].
  cbn [map combine filter fst]. destruct (py_eq (nth 4 e VNone) k).
  - cbn [map snd]. now rewrite IH.
  - exact IH.
Qed.

Lemma add_hosts_paths (t : Np.table) :
  Forall (fun e => request_cells e = true) t ->
  Np.add (names_of 3 t) (names_of 4 t) = Ok (map label_of t).
Proof.
  induction 1 as [|e l He _ IH]; [reflexivity|].
  apply request_cells_inv in He as (t0 & s & r & h & p & d & ->).
  cbn. unfold names_of in IH. rewrite IH. reflexivity.
Qed.

Lemma reduce_add_floats (qs : list Q) (a : Q) :
  Np.reduce_add (VFloat a) (map VFloat qs) = Ok (VFloat (fold_left Qplus qs a)).
Proof.
  revert a. induction qs as [|q qs IH]; intros a; simpl; [reflexivity|].
  apply IH.
Qed.

(** The mean of a column of floats that is not empty. *)
Lemma mean_of_floats (qs : list Q) :
  qs <> [] ->
  Np.mean (map VFloat qs) = Ok (VFloat (mean_floats qs)).
Proof.
  intros Hne. destruct qs as [|q qs]; [congruence|].
  unfold Np.mean. rewrite length_map.
  cbn [map Np.sum]. rewrite reduce_add_floats.
  cbn [Py.bind]. unfold py_truediv. cbn [as_number].
  destruct (Qeq_bool _ 0) eqn:E.
  - apply Qeq_bool_iff in E. unfold Qeq in E. cbn -[Z.of_nat] in E.
    cbn [List.length] in E. lia.
  - reflexivity.
Qed.

(** *** Sorting by a float key *)

Section SortByFloat.
Context {A : Type} (key : A -> value).

Let is_number (x : A) : Prop := exists q, key x = VFloat q.
Let ascending (a b : A) : Prop := (number_of (key a) <= number_of (key b))%Q.

Lemma py_lt_numbers (a b : A) :
  is_number a -> is_number b ->
  py_lt (key a) (key b)
  = Ok (negb (Qle_bool (number_of (key b)) (number_of (key a)))).
Proof.
  intros [qa Ha] [qb Hb]. unfold number_of. rewrite Ha, Hb. reflexivity.
Qed.

Lemma insert_numbers (x : A) (l : list A) :
  is_number x -> Forall is_number l -> StronglySorted ascending l ->
  exists r, Py.insert key x l = Ok r /\
            Permutation (x :: l) r /\ StronglySorted ascending r.
Proof.
  intros Hx Hl Hs. induction l as [|y l IH]; simpl.
  - exists [x]. repeat split; [apply Permutation_refl|].
    constructor; constructor.
  - inversion Hl as [|? ? Hy Hl']; subst.
    inversion Hs as [|? ? Hs' Hyl]; subst.
    rewrite (py_lt_numbers Hy Hx). cbn [Py.bind].
    destruct (Qle_bool (number_of (key x)) (number_of (key y))) eqn:E;
      cbn [negb].
    + apply Qle_bool_iff in E.
      exists (x :: y :: l). repeat split; [apply Permutation_refl|].
      constructor; [exact Hs|].
      constructor; [exact E|].
      revert Hyl. apply Forall_impl. intros z Hz. unfold ascending in *.
      eapply Qle_trans; eassumption.
    + destruct (IH Hl' Hs') as (r & -> & Hperm & Hr). cbn [Py.bind].
      exists (y :: r). repeat split.
      * eapply perm_trans; [apply perm_swap | now apply perm_skip].
      * constructor; [exact Hr|].
        apply (Permutation_Forall Hperm). constructor; [|exact Hyl].
        unfold ascending. apply Qlt_le_weak, Qnot_le_lt.
        intros Hle. apply Qle_bool_iff in Hle. congruence.
Qed.

Lemma sort_numbers (l : list A) :
  Forall is_number l ->
  exists s, Py.sort key l = Ok s /\
            Permutation l s /\ StronglySorted ascending s.
Proof.
  induction 1 as [|x l Hx Hl IH]; simpl.
  - exists []. repeat split; constructor.
  - destruct IH as (s & -> & Hperm & Hs). cbn [Py.bind].
    destruct (@insert_numbers x s Hx) as (r & Hr & Hperm' & Hsorted);
      [now apply (Permutation_Forall Hperm) | exact Hs |].
    exists r. repeat split; [exact Hr | | exact Hsorted].
    eapply perm_trans; [apply perm_skip, Hperm | exact Hperm'].
Qed.
End SortByFloat.

(** *** The rows of a key common to both periods *)

Lemma seen_into_in (l acc : list value) (x : value) :
  In x (seen_into acc l) -> In x acc \/ In x l.
Proof.
  revert acc. induction l as [|n l IH]; intros acc; simpl; [tauto|].
  intros H. apply IH in H as [H | H]; [|tauto].
  destruct (py_in n acc); [tauto|].
  apply in_app_or in H as [H | [<- | []]]; tauto.
Qed.

Lemma distinct_filter (p : value -> bool) (l : list value) :
  distinct l -> distinct (filter p l).
Proof.
  induction l as [|x l IH]; simpl; [tauto|].
  intros [Hx Hd]. destruct (p x); [|now apply IH].
  split; [|now apply IH].
  apply py_in_false. apply py_in_false in Hx.
  now apply Forall_filter_keep.
Qed.

Lemma common_key_rows (t1 t2 : Np.table) (k : value) :
  In k (not_in (first_seen (names_of 4 t1))
          (not_in (first_seen (names_of 4 t1)) (first_seen (names_of 4 t2)))) ->
  rows_for k t1 <> [] /\ rows_for k t2 <> [].
Proof.
  rewrite not_in_twice. intros H. apply filter_In in H as [Hthis Hlast].
  assert (Hrows : forall t y, In y (first_seen (names_of 4 t)) ->
                              py_eq y k = true -> rows_for k t <> []).
  { intros t y Hy Hyk.
    apply seen_into_in in Hy as [[] | Hy].
    unfold names_of in Hy. apply in_map_iff in Hy as (e & <- & He).
    intros Hnil.
    assert (Hin : In e (rows_for k t)) by (apply filter_In; now split).
    rewrite Hnil in Hin. contradiction. }
  split.
  - apply (Hrows t1 k Hthis). apply py_eq_refl.
  - apply py_in_true in Hlast as (y & Hy & Hyk). now apply (Hrows t2 y).
Qed.

Lemma fold_left_last (t : Np.table) (ks : list value) (d : option Np.table) :
  ks <> [] ->
  fold_left (fun _ k => Some (rows_for k t)) ks d
  = Some (rows_for (List.last ks VNone) t).
Proof.
  revert d. induction ks as [|k ks IH]; intros d Hne; [congruence|].
  destruct ks as [|k' ks]; [reflexivity|].
  change (fold_left _ (k :: k' :: ks) d)
    with (fold_left (fun _ k0 => Some (rows_for k0 t)) (k' :: ks)
            (Some (rows_for k t))).
  rewrite IH by discriminate. reflexivity.
Qed.

(** The loop of line 76: for every common key the rows of the key in both
    periods, and the difference of their mean success rates. *)
Lemma delta_loop (t1 t2 : Np.table) :
  Forall (fun e => request_cells e = true) t1 ->
  Forall (fun e => request_cells e = true) t2 ->
  forall ks d dd ds,
    Forall (fun k => rows_for k t1 <> [] /\ rows_for k t2 <> []) ks ->
    distinct ks ->
    Forall (fun k => Forall (fun p => py_eq (fst p) k = false) ds) ks ->
    exists dd',
      for_each ks
        (fun '(_, delta_duration, delta_success) n =>
           Py.bind (Np.where_eq t1 4 n) (fun d1_tmp =>
           Py.bind (Np.where_eq t2 4 n) (fun d2_tmp =>
           Py.bind (Np.column d1_tmp 5) (fun c1 =>
           Py.bind (Np.mean c1) (fun m1 =>
           Py.bind (Np.column d2_tmp 5) (fun c2 =>
           Py.bind (Np.mean c2) (fun m2 =>
           Py.bind (py_sub m1 m2) (fun dd =>
           Py.bind (Np.column d1_tmp 2) (fun c1 =>
           Py.bind (Np.mean c1) (fun m1 =>
           Py.bind (Np.column d2_tmp 2) (fun c2 =>
           Py.bind (Np.mean c2) (fun m2 =>
           Py.bind (py_sub m1 m2) (fun ds =>
           Ok (Some d1_tmp, dict_set delta_duration n dd,
               dict_set delta_success n ds))))))))))))))
        (d, dd, ds)
      = Ok (fold_left (fun _ k => Some (rows_for k t1)) ks d, dd',
            ds ++ map (fun k => (k, VFloat (mean_rate k t1 - mean_rate k t2)))
                    ks).
Proof.
  intros Hc1 Hc2.
  induction ks as [|k ks IH]; intros d dd ds Hrows Hd Hfresh.
  - exists dd. simpl. now rewrite app_nil_r.
  - inversion Hrows as [|? ? [Hr1 Hr2] Hrows']; subst.
    destruct Hd as [Hk Hd]. inversion Hfresh as [|? ? Hfk Hfresh']; subst.
    assert (Hf1 : Forall (fun e => request_cells e = true) (rows_for k t1))
      by now apply Forall_filter_keep.
    assert (Hf2 : Forall (fun e => request_cells e = true) (rows_for k t2))
      by now apply Forall_filter_keep.
    assert (Hmean : forall (f : list value -> Q) (t : Np.table),
               t <> [] ->
               Np.mean (map (fun e => VFloat (f e)) t)
               = Ok (VFloat (mean_floats (map f t)))).
    { intros f t Ht. rewrite <- (map_map f VFloat).
      apply mean_of_floats. destruct t; [congruence | discriminate]. }
    cbn [for_each].
    rewrite (where_eq_paths _ Hc1), (where_eq_paths _ Hc2). cbn [Py.bind].
    rewrite (column_durations Hf1). cbn [Py.bind].
    rewrite (Hmean duration_of _ Hr1). cbn [Py.bind].
    rewrite (column_durations Hf2). cbn [Py.bind].
    rewrite (Hmean duration_of _ Hr2). cbn [Py.bind py_sub].
    rewrite (column_rates Hf1). cbn [Py.bind].
    rewrite (Hmean rate_of _ Hr1). cbn [Py.bind].
    rewrite (column_rates Hf2). cbn [Py.bind].
    rewrite (Hmean rate_of _ Hr2). cbn [Py.bind py_sub].
    rewrite (dict_set_fresh (d := ds)) by exact Hfk.
    destruct (IH (Some (rows_for k t1))
                (dict_set dd k
                   (VFloat (mean_floats (map duration_of (rows_for k t1))
                            - mean_floats (map duration_of (rows_for k t2)))))
                (ds ++ [(k, VFloat (mean_floats (map rate_of (rows_for k t1))
                                    - mean_floats (map rate_of (rows_for k t2))))])
                Hrows' Hd) as [dd' Hloop].
    { apply py_in_false in Hk. rewrite Forall_forall in Hk, Hfresh'.
      apply Forall_forall. intros k0 Hk0. apply Forall_app. split.
      - now apply Hfresh'.
      - constructor; [|constructor]. simpl. now apply py_eq_false_sym, Hk. }
    exists dd'. rewrite Hloop. cbn [fold_left].
    now rewrite <- app_assoc.
Qed.

Lemma combine_maps {A B C : Type} (f : A -> B) (g : A -> C) (l : list A) :
  combine (map f l) (map g l) = map (fun x => (f x, g x)) l.
Proof. induction l as [|x l IH]; simpl; [reflexivity | now rewrite IH]. Qed.

Lemma StronglySorted_map {A B : Type} (R : B -> B -> Prop) (g : A -> B)
  (l : list A) :
  StronglySorted (fun a b => R (g a) (g b)) l -> StronglySorted R (map g l).
Proof.
  induction 1 as [|x l _ IH Hx]; simpl; constructor; [exact IH|].
  apply Forall_map. exact Hx.
Qed.

Lemma combine_map_self {A B : Type} (f : A -> B) (l : list A) :
  combine (map f l) l = map (fun x => (f x, x)) l.
Proof. induction l as [|x l IH]; simpl; [reflexivity | now rewrite IH]. Qed.

(** [a[a[:, 2].argsort()]] on rows of the requests request. *)
Lemma sort_rows_by_rate (d : Np.table) :
  Forall (fun e => request_cells e = true) d ->
  exists rows,
    Np.sort_rows d 2 = Ok rows /\
    Permutation d rows /\
    StronglySorted (fun a b => (rate_of a <= rate_of b)%Q) rows.
Proof.
  intros Hd. unfold Np.sort_rows. rewrite (column_rates Hd). cbn [Py.bind].
  rewrite combine_map_self.
  destruct (@sort_numbers _ (@fst value (list value))
              (map (fun e => (VFloat (rate_of e), e)) d))
    as (s & -> & Hperm & Hsorted).
  { apply Forall_map, Forall_forall. intros e _. eexists. reflexivity. }
  cbn [Py.bind]. exists (map snd s). split; [reflexivity|]. split.
  - assert (Hd' : map snd (map (fun e => (VFloat (rate_of e), e)) d) = d).
    { rewrite map_map. apply map_id. }
    rewrite <- Hd' at 1. now apply Permutation_map.
  - apply StronglySorted_map.
    assert (Hpairs : Forall (fun p => fst p = VFloat (rate_of (snd p))) s).
    { apply (Permutation_Forall Hperm), Forall_map, Forall_forall.
      now intros e _. }
    clear Hperm. induction Hsorted as [|p s Hs IH Hp]; constructor.
    + apply IH. now inversion Hpairs.
    + inversion Hpairs as [|? ? Hp0 Hpairs']; subst.
      rewrite Forall_forall in Hp, Hpairs'. apply Forall_forall.
      intros q Hq. specialize (Hp q Hq). specialize (Hpairs' q Hq).
      cbv beta in Hp. rewrite Hp0, Hpairs' in Hp. exact Hp.
Qed.

Section Requests2.
Variable experimental : ClickHouseClient.
Variables (project_id : Z) (start_time end_time : string).
Variable time_step : value.
Variable conn : option ClickHouseClient.
Variables (function : string) (steps : Z) (res : list row).

Hypothesis Hstep : __handle_timestep time_step = Ok (function, steps).
Hypothesis Hres :
  execute (connect experimental conn)
    (make_query REQUEST function steps project_id start_time end_time)
  = Ok res.
Hypothesis Hrows : forallb typed_request_row res = true.

Variables (t1 t2 : Np.table) (cols : list string) (this last : list value).
Hypothesis Hsplit :
  __get_two_values res "hh" "source" = Ok (t1, t2, cols, this, last).

Let requests_result : result output :=
  fst (query_requests_by_period experimental project_id start_time
         end_time time_step conn).

Let common : list value := not_in this (not_in this last).

Let deltas : list (value * value) :=
  map (fun k => (k, VFloat (mean_rate k t1 - mean_rate k t2))) common.

Lemma requests_split_facts :
  cols = request_columns /\
  this = first_seen (names_of 4 t1) /\
  last = first_seen (names_of 4 t2) /\
  Forall (fun e => request_cells e = true) t1 /\
  Forall (fun e => request_cells e = true) t2.
Proof.
  destruct (@requests_split res) as (a & b & Hgtv & Hne & Ha & Hb).
  - intros E. rewrite E in Hsplit. discriminate Hsplit.
  - exact Hrows.
  - rewrite Hsplit in Hgtv. injection Hgtv as -> -> -> -> ->.
    repeat split; assumption.
Qed.

(** The function as the steps that are left once the rows are split. *)
Lemma requests_steps :
  requests_result
  = match common with
    | [] => Raise UnboundLocalError
    | _ :: _ =>
        Py.bind (Np.sort_rows (rows_for (List.last common VNone) t1) 2)
          (fun rows =>
             Py.bind (sorted (@snd value value) false deltas)
               (fun by_delta =>
                  Ok (Compared
                        {| ratio := map (fun e => (label_of e,
                                                   VFloat (rate_of e))) rows;
                           increase := by_delta;
                           new_events := not_in this last |})))
    end.
Proof.
  destruct requests_split_facts as (Hcols & Hthis & Hlast & Hc1 & Hc2).
  unfold requests_result, query_requests_by_period.
  rewrite Hstep. unfold lift at 1. cbn [bindM].
  unfold run. rewrite Hres. cbn [bindM].
  unfold lift. rewrite Hsplit. cbn [Py.bind fst].
  rewrite Hcols.
  change (index request_columns "source") with (@Ok nat 4%nat).
  change (index request_columns "avg_duration") with (@Ok nat 5%nat).
  change (index request_columns "success_rate") with (@Ok nat 2%nat).
  change (index request_columns "names") with (@Ok nat 3%nat).
  cbn [Py.bind]. fold common.
  destruct (@delta_loop t1 t2 Hc1 Hc2 common None [] [])
    as [dd' Hloop].
  - apply Forall_forall. intros k Hk. apply common_key_rows.
    unfold common in Hk. now rewrite Hthis, Hlast in Hk.
  - unfold common, not_in at 1. apply distinct_filter.
    rewrite Hthis. now apply seen_into_distinct.
  - apply Forall_forall. intros k _. constructor.
  - rewrite Hloop. cbn [Py.bind app]. fold deltas.
    destruct common as [|k ks] eqn:E; [reflexivity|].
    rewrite fold_left_last by discriminate. cbn [Py.bind].
    destruct (Np.sort_rows _ 2) as [rows|e] eqn:Esort; cbn [Py.bind];
      [|reflexivity].
    assert (Hrows' : Forall (fun e => request_cells e = true) rows).
    { destruct (@sort_rows_by_rate (rows_for (List.last (k :: ks) VNone) t1))
        as (rows' & Hsort & Hperm & _);
        [now apply Forall_filter_keep|].
      rewrite Hsort in Esort. injection Esort as <-.
      apply (Permutation_Forall Hperm). now apply Forall_filter_keep. }
    rewrite (column_hosts Hrows'), (column_paths Hrows'). cbn [Py.bind].
    rewrite (add_hosts_paths Hrows'). cbn [Py.bind].
    rewrite (column_rates Hrows'). cbn [Py.bind].
    now rewrite combine_maps.
Qed.

Lemma requests_returned :
  common <> [] ->
  exists rows by_delta,
    requests_result
    = Ok (Compared {| ratio := map (fun e => (label_of e, VFloat (rate_of e)))
                                 rows;
                      increase := by_delta;
                      new_events := not_in this last |}) /\
    Permutation (rows_for (List.last common VNone) t1) rows /\
    StronglySorted (fun a b => (rate_of a <= rate_of b)%Q) rows /\
    Permutation deltas by_delta /\
    StronglySorted by_share by_delta.
Proof.
  intros Hne. rewrite requests_steps.
  destruct requests_split_facts as (_ & _ & _ & Hc1 & _).
  destruct common as [|k ks] eqn:E; [congruence|].
  destruct (@sort_rows_by_rate (rows_for (List.last (k :: ks) VNone) t1))
    as (rows & -> & Hperm & Hsorted); [now apply Forall_filter_keep|].
  cbn [Py.bind]. unfold sorted.
  destruct (@sort_floats deltas) as (by_delta & -> & Hperm' & Hsorted').
  { unfold deltas. apply Forall_map, Forall_forall. intros k0 _.
    eexists. reflexivity. }
  cbn [Py.bind]. exists rows, by_delta. repeat split; assumption.
Qed.

(** X11: the requests function returns exactly when a key is common to both
    periods; without one (rows of one bucket, or no path seen in both) it
    raises UnboundLocalError. *)
Theorem requests_returns_iff :
  (common = [] -> requests_result = Raise UnboundLocalError) /\
  ((exists out, requests_result = Ok out) <-> common <> []).
Proof.
  split; [|split].
  - intros Hnone. rewrite requests_steps, Hnone. reflexivity.
  - intros [out Hout] Hnone. rewrite requests_steps, Hnone in Hout.
    discriminate.
  - intros Hne. destruct (requests_returned Hne) as (rows & by_delta & H & _).
    eauto.
Qed.

(** X12: when a key is common, [increase] holds one pair per common key, the
    key with the mean success rate of its current rows minus the mean success
    rate of its previous rows, in ascending order of that difference, and
    [new_events] holds the current keys that are not previous keys. *)
Theorem requests_increase :
  common <> [] ->
  exists c,
    requests_result = Ok (Compared c) /\
    Permutation deltas (increase c) /\
    StronglySorted by_share (increase c) /\
    new_events c = not_in this last.
Proof.
  intros Hne.
  destruct (requests_returned Hne)
    as (rows & by_delta & H & _ & _ & Hperm & Hsorted).
  eexists. split; [exact H|]. repeat split; assumption.
Qed.

(** X13: when a key is common, [ratio] covers the current rows of the last
    common key only: one pair per such row, the host followed by the path
    with the success rate of the row, in ascending order of the rate. *)
Theorem requests_ratio :
  common <> [] ->
  exists c rows,
    requests_result = Ok (Compared c) /\
    Permutation (rows_for (List.last common VNone) t1) rows /\
    StronglySorted (fun a b => (rate_of a <= rate_of b)%Q) rows /\
    ratio c = map (fun e => (label_of e, VFloat (rate_of e))) rows.
Proof.
  intros Hne.
  destruct (requests_returned Hne)
    as (rows & by_delta & H & Hperm & Hsorted & _).
  eexists. exists rows. split; [exact H|]. repeat split; assumption.
Qed.
End Requests2.

(** ** The further properties on sample data *)

Lemma category_requests_witness :
  exists c,
    category (source two_bucket_requests) project start stop
      (VStr "fortnight") "network" = Some c /\
    c = (Raise AssertionError, []).
Proof.
  destruct (@category_requests (source two_bucket_requests) project start stop
              (VStr "fortnight") "network" REQUEST eq_refl)
    as (c & Hc & Hrejected & _).
  exists c. split; [exact Hc|]. now apply Hrejected.
Defined.

Lemma fetch_selected_rejected_time_step_witness :
  fetch_selected (source five_rows) ["clicks"; "rage"] project start stop
    (VStr "fortnight")
  = (Raise AssertionError, []).
Proof.
  apply (@fetch_selected_rejected_time_step (source five_rows) project start
           stop (VStr "fortnight") ["clicks"; "rage"] "rage" AssertionError
           eq_refl).
  - right. right. now left.
  - right. now left.
Defined.

Lemma fetch_selected_membership_witness :
  fetch_selected (source disjoint_rows) ["rage"; "errors"; "rage"; "clicks"]
    project start stop hour
  = fetch_selected (source disjoint_rows) ["errors"; "rage"] project start stop
      hour.
Proof.
  apply fetch_selected_membership; try discriminate.
  intros name [<- | [<- | [<- | [<- | []]]]]; split; intros H;
    repeat (destruct H as [H | H]; try discriminate H);
    try contradiction; simpl; tauto.
Defined.

Lemma fetch_selected_report_witness :
  exists report,
    fst (fetch_selected (source disjoint_rows) ["rage"; "errors"] project start
           stop hour) = Ok report /\
    map fst report = ["errors"; "rage"] /\
    report_get report "rage" = Some (RawRows disjoint_rows).
Proof.
  destruct (@fetch_selected_report (source disjoint_rows) project start stop
              hour ["rage"; "errors"])
    as (report & Hrun & Hkeys & Hin & _).
  - discriminate.
  - repeat constructor; (eexists; eexists; split; reflexivity).
  - exists report. split; [now rewrite Hrun|]. split; [exact Hkeys|].
    apply (Hin "rage"). right. now left.
Defined.

Lemma split_failures_witness :
  __get_two_values five_rows "hh" "source" = Raise ValueError.
Proof.
  apply (proj1 (split_failures "hh" "source" (error_row T2 3 "A")
                  (tl five_rows))).
  left. intros [H | [H | [H | [H | []]]]]; discriminate H.
Defined.

Lemma split_invariants_witness :
  exists current_rows previous_rows,
    __get_two_values unordered_rows "hh" "names"
    = Ok (current_rows, previous_rows, errors_columns,
          first_seen (names_of 2 current_rows),
          first_seen (names_of 2 previous_rows)) /\
    Forall (carries 0 [VTime T2]) current_rows.
Proof.
  destruct (@split_invariants "hh" "names" (error_row T2 3 "A")
              (tl unordered_rows) 0 2)
    as (t0 & current_rows & previous_rows & Hcell & Hsplit & _ & _ & _
        & Hcurrent & _).
  - repeat constructor.
  - reflexivity.
  - reflexivity.
  - injection Hcell as <-. now exists current_rows, previous_rows.
Defined.

Lemma split_assigns_by_count_witness :
  __get_two_values unordered_rows "hh" "names"
  = Ok (map values [error_row T2 3 "A"],
        map values [error_row T1 2 "C"; error_row T2 1 "B"],
        errors_columns, [VStr "A"], [VStr "C"; VStr "B"]).
Proof.
  apply (@split_assigns_by_count "hh" "names" (error_row T2 3 "A")
           (tl unordered_rows) 0 2 T2 T1 (values (error_row T1 2 "C"))
           [] [values (error_row T2 1 "B")] []).
  - repeat constructor.
  - reflexivity.
  - reflexivity.
  - reflexivity.
  - reflexivity.
  - constructor.
  - reflexivity.
  - discriminate.
  - constructor; [now left | constructor].
  - now left.
Defined.

Lemma errors_returns_iff_witness :
  exists c,
    fst (query_most_errors_by_period (source disjoint_rows) project start stop
           hour None) = Ok (Compared c) /\
    increase c = [] /\ new_events c = [VStr "E"; VStr "F"].
Proof.
  destruct (@errors_returns_iff (source disjoint_rows) project start stop hour
              None "toStartOfHour({0})" 3600%Z disjoint_rows
              eq_refl eq_refl eq_refl
              (map values [error_row T2 10 "E"; error_row T2 30 "F"])
              (map values [error_row T1 4 "G"])
              errors_columns [VStr "E"; VStr "F"] [VStr "G"] eq_refl)
    as [Hshape [_ Hreturns]].
  destruct Hreturns as [out Hout]; [split; [discriminate | reflexivity]|].
  destruct (Hshape out Hout) as (c & -> & Hinc & Hnew).
  now exists c.
Defined.

Lemma errors_shares_bounded_witness :
  Forall (fun p => (0 <= share_of p /\ share_of p <= 1)%Q)
    [(VStr "F", VFloat (30 # 40)); (VStr "E", VFloat (10 # 40))].
Proof.
  apply (@errors_shares_bounded (source disjoint_rows) project start stop hour
           None "toStartOfHour({0})" 3600%Z disjoint_rows
           eq_refl eq_refl eq_refl
           (map values [error_row T2 10 "E"; error_row T2 30 "F"])
           (map values [error_row T1 4 "G"])
           errors_columns [VStr "E"; VStr "F"] [VStr "G"] eq_refl
           {| ratio := [(VStr "F", VFloat (30 # 40));
                        (VStr "E", VFloat (10 # 40))];
              increase := [];
              new_events := [VStr "E"; VStr "F"] |}).
  - repeat constructor; discriminate.
  - reflexivity.
Defined.

Lemma request_bucketing_witness :
  make_query ERROR "toStartOfInterval({0}, INTERVAL 15 minute)" 900 project
    start stop
  = {| q_event := ERROR;
       q_start := "toStartOfInterval(toDateTime64('2022-04-19', 0), INTERVAL 15 minute)";
       q_end := "toStartOfInterval(toDateTime64('2022-04-21', 0), INTERVAL 15 minute)";
       q_steps := 900;
       q_dtime := "toStartOfInterval(datetime, INTERVAL 15 minute)";
       q_project_id := 1307 |}.
Proof.
  exact (proj1 (@request_bucketing (VInt 15)
                  "toStartOfInterval({0}, INTERVAL 15 minute)" 900%Z ERROR
                  project start stop eq_refl)).
Defined.

Lemma requests_returns_iff_witness :
  fst (query_requests_by_period (source one_bucket_requests) project start
         stop hour None) = Raise UnboundLocalError.
Proof.
  apply (@requests_returns_iff (source one_bucket_requests) project start stop
           hour None "toStartOfHour({0})" 3600%Z one_bucket_requests
           eq_refl eq_refl eq_refl
           (map values one_bucket_requests) [] request_columns
           [VStr "/x"; VStr "/y"] [] eq_refl).
  reflexivity.
Defined.

Lemma requests_increase_witness :
  exists c,
    fst (query_requests_by_period (source two_bucket_requests) project start
           stop hour None) = Ok (Compared c) /\
    map fst (increase c) = [VStr "/x"] /\
    new_events c = [VStr "/new"].
Proof.
  destruct (@requests_increase (source two_bucket_requests) project start stop
              hour None "toStartOfHour({0})" 3600%Z two_bucket_requests
              eq_refl eq_refl eq_refl
              (map values (firstn 3 two_bucket_requests))
              (map values (skipn 3 two_bucket_requests)) request_columns
              [VStr "/x"; VStr "/new"] [VStr "/x"] eq_refl)
    as (c & Hc & _ & _ & Hnew).
  - discriminate.
  - exists c. split; [exact Hc|]. split; [|exact Hnew].
    injection Hc as <-. reflexivity.
Defined.

Lemma requests_ratio_witness :
  exists c,
    fst (query_requests_by_period (source two_bucket_requests) project start
           stop hour None) = Ok (Compared c) /\
    map fst (ratio c) = [VStr "b.io/x"; VStr "a.io/x"].
Proof.
  destruct (@requests_ratio (source two_bucket_requests) project start stop
              hour None "toStartOfHour({0})" 3600%Z two_bucket_requests
              eq_refl eq_refl eq_refl
              (map values (firstn 3 two_bucket_requests))
              (map values (skipn 3 two_bucket_requests)) request_columns
              [VStr "/x"; VStr "/new"] [VStr "/x"] eq_refl)
    as (c & rows & Hc & _).
  - discriminate.
  - exists c. split; [exact Hc|]. injection Hc as <-. reflexivity.
Defined.
